(** * DS1343 real-time clock driver: register protocol and BCD time codec

    A shallow embedding of [sierralobo_ds134x.py].  Python integers are [Z]
    (unbounded, with the two's-complement reading of [&], [|], [<<], [>>]
    that [Z.land], [Z.lor], [Z.shiftl], [Z.shiftr] share with Python; [//]
    and [%] are [Z.div] and [Z.modulo], both flooring).  The module-level
    [bytearray(8)] is a [list Z] held in the driver state, exceptions are an
    explicit outcome, and the SPI device is a small simulated bus with a
    register-file chip behind it. *)

From Stdlib Require Import ZArith List Bool Lia.
Import ListNotations.
Open Scope Z_scope.

(** ** Python values the driver handles *)

Module Py.

Inductive exn : Type :=
| TypeError
| AttributeError
| IndexError
| ValueError
| OSError (errno : Z).

Inductive outcome (A : Type) : Type :=
| Return (a : A)
| Raise (e : exn).
Arguments Return {A} a.
Arguments Raise {A} e.

(** [time.struct_time]: the nine calendar fields, in constructor order. *)
Record struct_time : Type := mk_struct_time {
  tm_year : Z; tm_mon : Z; tm_mday : Z;
  tm_hour : Z; tm_min : Z; tm_sec : Z;
  tm_wday : Z; tm_yday : Z; tm_isdst : Z
}.

(** The objects that can reach [isinstance] in the setter: an integer, a
    [struct_time], and the builtin class [set] itself. *)
Inductive object : Type :=
| Int (z : Z)
| StructTime (t : struct_time)
| BuiltinSet.

(** [isinstance(o, struct_time)] *)
Definition isinstance_struct_time (o : object) : bool :=
  match o with
  | StructTime _ => true
  | _ => false
  end.

(** Attribute access [o.tm_sec], [o.tm_min], ...: only a [struct_time]
    carries the fields. *)
Definition fields (o : object) : outcome struct_time :=
  match o with
  | StructTime t => Return t
  | _ => Raise AttributeError
  end.

End Py.
Import Py.

(** ** BCD codec (module-level functions) *)

Definition _bcd_to_int (val : Z) : Z :=
  let tens := Z.shiftr (Z.land val 0xF0) 4 in
  let ones := Z.land val 0x0F in
  (tens * 10) + ones.

(** The argument is an [int] already (a [struct_time] field), so the
    [int(val)] conversion of the source does not apply. *)
Definition _int_to_bcd (val : Z) : Z :=
  let thou := val / 1000 in
  let hund := val / 100 in
  let tens := val / 10 in
  let ones := val mod 10 in
  Z.lor (Z.lor (Z.lor (Z.shiftl (Z.land thou 0x0F) 0x12)
                      (Z.shiftl (Z.land hund 0x0F) 0x8))
               (Z.shiftl (Z.land tens 0x0F) 0x4))
        (Z.land ones 0x0F).

(** The packing the specification describes for [int_to_bcd]: the four
    decimal digits at bit offsets 12, 8, 4 and 0. *)
Definition int_to_bcd_spec (v : Z) : Z :=
  Z.lor (Z.lor (Z.lor (Z.shiftl ((v / 1000) mod 10) 12)
                      (Z.shiftl ((v / 100) mod 10) 8))
               (Z.shiftl ((v / 10) mod 10) 4))
        (v mod 10).

(** ** The serial bus and the chip behind it

    [adafruit_bus_device.spi_device.SPIDevice] is a context manager: entering
    it asserts chip-select, leaving it de-asserts chip-select, and inside the
    block [write] and [readinto] clock bytes out and in.  The chip is a
    register file: the first byte of a frame is the address with the
    direction in bit 7, every further byte is stored at (write) or fetched
    from (read) the addressed register, and the address then advances.  A
    transfer can fail with a link error; [faults] schedules, call by call,
    which transfers do.  The bus keeps a log of what the driver asked of
    it, in order. *)

Module SPI.

Inductive event : Type :=
| Select
| Deselect
| Write (data : list Z)
| ReadInto (n : nat)
| Failed (e : exn).

Record chip : Type := mk_chip {
  regs : Z -> Z;
  ptr : option (bool * Z)      (* direction (true = write) and address *)
}.

Definition upd (r : Z -> Z) (a v : Z) : Z -> Z :=
  fun x => if x =? a then v else r x.

Definition next (a : Z) : Z := (a + 1) mod 128.

(** One byte exchanged with the chip: what it answers, and its new state. *)
Definition chip_xfer (mosi : Z) (c : chip) : Z * chip :=
  match ptr c with
  | None =>
      (0, mk_chip (regs c) (Some (Z.testbit mosi 7, Z.land mosi 0x7F)))
  | Some (true, a) =>
      (0, mk_chip (upd (regs c) a mosi) (Some (true, next a)))
  | Some (false, a) =>
      (Z.land (regs c a) 0xFF, mk_chip (regs c) (Some (false, next a)))
  end.

Fixpoint clock (mosi : list Z) (c : chip) : list Z * chip :=
  match mosi with
  | [] => ([], c)
  | m :: ms =>
      let (r, c1) := chip_xfer m c in
      let (rs, c2) := clock ms c1 in
      (r :: rs, c2)
  end.

Record bus : Type := mk_bus {
  selected : bool;
  device : chip;
  faults : list (option exn);
  log : list event
}.

(** [SPIDevice.__enter__]: chip-select asserted, a new frame starts. *)
Definition enter (b : bus) : bus :=
  mk_bus true (mk_chip (regs (device b)) None) (faults b)
         (log b ++ [Select]).

(** [SPIDevice.__exit__]: chip-select released, which ends the frame; it
    never swallows the exception of the block. *)
Definition exit (b : bus) : bus :=
  mk_bus false (mk_chip (regs (device b)) None) (faults b)
         (log b ++ [Deselect]).

(** The next scheduled transfer outcome, and the rest of the schedule. *)
Definition pop_fault (fs : list (option exn)) : option exn * list (option exn) :=
  match fs with
  | [] => (None, [])
  | f :: rest => (f, rest)
  end.

(** [device.write(data)].  A transfer that fails is taken to deliver no
    byte; the numbered properties below that speak of a failing link are
    about the outcome, the log, and registers the failed frame does not
    address, and do not rest on that choice. *)
Definition write (data : list Z) (b : bus) : outcome unit * bus :=
  let lg := log b ++ [Write data] in
  match pop_fault (faults b) with
  | (Some e, rest) =>
      (Raise e, mk_bus (selected b) (device b) rest (lg ++ [Failed e]))
  | (None, rest) =>
      let c := if selected b then snd (clock data (device b)) else device b in
      (Return tt, mk_bus (selected b) c rest lg)
  end.

(** [device.readinto(...)] of [n] bytes; the line idles at zero. *)
Definition readinto (n : nat) (b : bus) : outcome (list Z) * bus :=
  let lg := log b ++ [ReadInto n] in
  match pop_fault (faults b) with
  | (Some e, rest) =>
      (Raise e, mk_bus (selected b) (device b) rest (lg ++ [Failed e]))
  | (None, rest) =>
      let x :=
        if selected b then clock (repeat 0 n) (device b)
        else (repeat 0 n, device b) in
      (Return (fst x), mk_bus (selected b) (snd x) rest lg)
  end.

End SPI.

(** ** Driver state and its monad *)

(** The module-level [_BUFFER], one caller-owned bytearray (for the transport
    functions that take a buffer argument), and the bus. *)
Record state : Type := mk_state {
  _BUFFER : list Z;
  caller_buf : list Z;
  bus : SPI.bus
}.

(** A buffer argument is a reference: either [_BUFFER] itself or the
    caller's bytearray. *)
Inductive bufref : Type := the_BUFFER | the_caller_buf.

Definition load (r : bufref) (s : state) : list Z :=
  match r with
  | the_BUFFER => _BUFFER s
  | the_caller_buf => caller_buf s
  end.

Definition save (r : bufref) (l : list Z) (s : state) : state :=
  match r with
  | the_BUFFER => mk_state l (caller_buf s) (bus s)
  | the_caller_buf => mk_state (_BUFFER s) l (bus s)
  end.

Definition set_bus (b : SPI.bus) (s : state) : state :=
  mk_state (_BUFFER s) (caller_buf s) b.

(** State is threaded through exceptions too: what a call did before it
    raised stays done. *)
Definition M (A : Type) : Type := state -> outcome A * state.

Definition ret {A} (a : A) : M A := fun s => (Return a, s).

Definition raise {A} (e : exn) : M A := fun s => (Raise e, s).

Definition bind {A B} (m : M A) (f : A -> M B) : M B :=
  fun s =>
    match m s with
    | (Return a, s1) => f a s1
    | (Raise e, s1) => (Raise e, s1)
    end.

Definition lift {A} (o : outcome A) : M A := fun s => (o, s).

Notation "x <- m ;; k" := (bind m (fun x => k))
  (at level 61, m at next level, right associativity).
Notation "m ;; k" := (bind m (fun _ => k))
  (at level 61, right associativity).

(** [with self._device as device: body] *)
Definition with_device {A} (body : M A) : M A :=
  fun s =>
    let (r, s1) := body (set_bus (SPI.enter (bus s)) s) in
    (r, set_bus (SPI.exit (bus s1)) s1).

(** [l[i] = v] on a list of bytes. *)
Fixpoint store (i : nat) (v : Z) (l : list Z) : option (list Z) :=
  match l, i with
  | [], _ => None
  | _ :: t, O => Some (v :: t)
  | h :: t, S j => option_map (cons h) (store j v t)
  end.

Definition is_byte (v : Z) : bool := (0 <=? v) && (v <=? 255).

(** [_BUFFER[i] = v] *)
Definition setitem (i : nat) (v : Z) : M unit :=
  fun s =>
    match store i v (_BUFFER s) with
    | None => (Raise IndexError, s)
    | Some l =>
        if is_byte v then (Return tt, save the_BUFFER l s)
        else (Raise ValueError, s)
    end.

(** [_BUFFER[i]] *)
Definition getitem (i : nat) : M Z :=
  fun s =>
    match nth_error (_BUFFER s) i with
    | Some v => (Return v, s)
    | None => (Raise IndexError, s)
    end.

(** [len(buf)] *)
Definition len (buf : bufref) : M nat :=
  fun s => (Return (List.length (load buf s)), s).

(** [device.write(buf, end=n)] *)
Definition device_write (buf : bufref) (n : nat) : M unit :=
  fun s =>
    let (r, b) := SPI.write (firstn n (load buf s)) (bus s) in
    (r, set_bus b s).

(** [device.readinto(buf, end=n)]: the bytes received replace [buf[0:n]]. *)
Definition device_readinto (buf : bufref) (n : nat) : M unit :=
  fun s =>
    let k := Nat.min n (List.length (load buf s)) in
    match SPI.readinto k (bus s) with
    | (Return miso, b) =>
        (Return tt, save buf (miso ++ skipn k (load buf s)) (set_bus b s))
    | (Raise e, b) => (Raise e, set_bus b s)
    end.

(** ** The driver: class [DS1343] *)

Definition _S_REG : Z := 0x0.
Definition _CTRL_REG : Z := 0x0F.

Module DS1343.

(** Register transport. *)

Definition _read_into (address : Z) (buf : bufref) (length : option nat)
  : M unit :=
  length <- (match length with
             | None => len buf
             | Some n => ret n
             end) ;;
  with_device (
    setitem 0 (Z.land address 0x7F) ;;
    device_write the_BUFFER 1 ;;
    device_readinto buf length).

Definition _read_u8 (address : Z) : M Z :=
  _read_into address the_BUFFER (Some 1%nat) ;;
  getitem 0.

Definition _write_from (address : Z) (buf : bufref) (length : option nat)
  : M unit :=
  length <- (match length with
             | None => len buf
             | Some n => ret n
             end) ;;
  with_device (
    setitem 0 (Z.land (Z.lor address 0x80) 0xFF) ;;
    device_write the_BUFFER 1 ;;
    device_write buf length).

Definition _write_u8 (address val : Z) : M unit :=
  with_device (
    setitem 0 (Z.land (Z.lor address 0x80) 0xFF) ;;
    setitem 1 (Z.land val 0xFF) ;;
    device_write the_BUFFER 2).

(** [__init__], after the device object is built: allow battery backup. *)
Definition __init__ : M unit :=
  ctrl <- _read_u8 _CTRL_REG ;;
  _write_u8 _CTRL_REG (Z.land ctrl 0x7F).

(** The [datetime] property (getter). *)
Definition datetime : M struct_time :=
  _read_into _S_REG the_BUFFER (Some 7%nat) ;;
  b0 <- getitem 0 ;;
  let tsec := _bcd_to_int b0 in
  b1 <- getitem 1 ;;
  let tmin := _bcd_to_int b1 in
  b2 <- getitem 2 ;;
  let thr := _bcd_to_int b2 in
  b3 <- getitem 3 ;;
  let dwd := Z.land b3 0x7 in
  b4 <- getitem 4 ;;
  let dmd := _bcd_to_int b4 in
  b5 <- getitem 5 ;;
  let dym := _bcd_to_int b5 in
  b6 <- getitem 6 ;;
  let y := _bcd_to_int b6 + 2000 in
  ret (mk_struct_time y dym dmd thr tmin tsec dwd (-1) (-1)).

(** Lines 69-99 of the setter: the seven field writes, then the
    read-modify-write of the status register. *)
Definition write_fields (time_struct : struct_time) : M unit :=
  let tsec := Z.land (_int_to_bcd (tm_sec time_struct)) 0x7F in
  _write_u8 0x00 tsec ;;
  let tmn := Z.land (_int_to_bcd (tm_min time_struct)) 0x7F in
  _write_u8 0x01 tmn ;;
  let thr := Z.land (_int_to_bcd (tm_hour time_struct)) 0x3F in
  _write_u8 0x02 thr ;;
  let dwd := Z.land (tm_wday time_struct) 0x3 in
  _write_u8 0x03 dwd ;;
  let dmd := Z.land (_int_to_bcd (tm_mday time_struct)) 0x3F in
  _write_u8 0x04 dmd ;;
  let dym := Z.land (_int_to_bcd (tm_mon time_struct)) 0x1F in
  _write_u8 0x05 dym ;;
  let y := Z.land (_int_to_bcd (tm_year time_struct - 2000)) 0xFF in
  _write_u8 0x06 y ;;
  stat <- _read_u8 0x10 ;;
  _write_u8 0x10 (Z.land stat 0x7F).

Section Setter.

(** [time.localtime], the host's calendar conversion. *)
Variable localtime : object -> outcome struct_time.

(** Lines 59-65 of the setter: which [time_struct] is written.  The test
    is [isinstance(set, struct_time)], on the builtin [set], not on the
    argument [set_time]. *)
Definition choose_time_struct (set_time : option object)
  : outcome struct_time :=
  match set_time with
  | Some set_time =>
      if isinstance_struct_time BuiltinSet then fields set_time
      else localtime set_time
  | None => localtime (Int 0)
  end.

(** The [datetime] property (setter). *)
Definition datetime_setter (set_time : option object) : M unit :=
  time_struct <- lift (choose_time_struct set_time) ;;
  write_fields time_struct.

End Setter.

(** The [valid] property. *)
Definition valid : M bool :=
  stat <- _read_u8 0x10 ;;
  ret (negb (Z.land stat 0x80 =? 0x80)).

Section Time.

(** [time.mktime], the host's conversion back to seconds. *)
Variable mktime : struct_time -> outcome Z.

(** The [time] property. *)
Definition time : M Z :=
  t <- datetime ;;
  lift (mktime t).

End Time.

End DS1343.

(** ** A host calendar to run the driver against

    [time.localtime] with UTC as the local zone: seconds since 1970-01-01
    to calendar fields ([tm_wday] counts from Monday = 0), and a
    [TypeError] for an argument that is not a number.  It stands in for
    the host on arguments in range only: it has no [OverflowError], and
    [mktime_utc] below does not normalise fields out of range.  The
    driver is stated over any [localtime] and [mktime]; these two serve
    the concrete runs. *)

Module Host.

Definition days_from_civil (y m d : Z) : Z :=
  let y := if m <=? 2 then y - 1 else y in
  let era := y / 400 in
  let yoe := y - era * 400 in
  let doy := (153 * (if m <=? 2 then m + 9 else m - 3) + 2) / 5 + d - 1 in
  let doe := yoe * 365 + yoe / 4 - yoe / 100 + doy in
  era * 146097 + doe - 719468.

Definition civil_from_days (days : Z) : Z * Z * Z :=
  let z := days + 719468 in
  let era := z / 146097 in
  let doe := z - era * 146097 in
  let yoe := (doe - doe / 1460 + doe / 36524 - doe / 146096) / 365 in
  let doy := doe - (365 * yoe + yoe / 4 - yoe / 100) in
  let mp := (5 * doy + 2) / 153 in
  let d := doy - (153 * mp + 2) / 5 + 1 in
  let m := if mp <? 10 then mp + 3 else mp - 9 in
  (yoe + era * 400 + (if m <=? 2 then 1 else 0), m, d).

Definition localtime_utc (secs : object) : outcome struct_time :=
  match secs with
  | Int t =>
      let days := t / 86400 in
      let rem := t mod 86400 in
      let '(y, m, d) := civil_from_days days in
      Return (mk_struct_time y m d
                (rem / 3600) ((rem mod 3600) / 60) (rem mod 60)
                ((days + 3) mod 7)
                (days - days_from_civil y 1 1 + 1)
                0)
  | _ => Raise TypeError
  end.

(** [time.mktime] for the same zone; it looks at the six date and time
    fields only. *)
Definition mktime_utc (t : struct_time) : outcome Z :=
  Return (days_from_civil (tm_year t) (tm_mon t) (tm_mday t) * 86400
          + tm_hour t * 3600 + tm_min t * 60 + tm_sec t).

End Host.

(** ** States to start from *)

Definition blank_chip : SPI.chip := SPI.mk_chip (fun _ => 0) None.

Definition idle_bus (c : SPI.chip) (fs : list (option exn)) : SPI.bus :=
  SPI.mk_bus false c fs [].

(** The module just imported ([_BUFFER = bytearray(8)]), in front of a chip
    [c] and a fault schedule [fs]. *)
Definition boot (c : SPI.chip) (fs : list (option exn)) : state :=
  mk_state (repeat 0 8) (repeat 0 8) (idle_bus c fs).

(** A register as the bus shows it: eight bits. *)
Definition byte_of (r : Z -> Z) (a : Z) : Z := Z.land (r a) 0xFF.

Definition reg (s : state) (a : Z) : Z :=
  byte_of (SPI.regs (SPI.device (bus s))) a.

(** The register file after the nine transactions of the setter, written
    out: seven field registers and the status register. *)
Definition regs_written (t : struct_time) (r : Z -> Z) : Z -> Z :=
  SPI.upd (SPI.upd (SPI.upd (SPI.upd (SPI.upd (SPI.upd (SPI.upd (SPI.upd r
    0x00 (Z.land (_int_to_bcd (tm_sec t)) 0x7F))
    0x01 (Z.land (_int_to_bcd (tm_min t)) 0x7F))
    0x02 (Z.land (_int_to_bcd (tm_hour t)) 0x3F))
    0x03 (Z.land (tm_wday t) 0x3))
    0x04 (Z.land (_int_to_bcd (tm_mday t)) 0x3F))
    0x05 (Z.land (_int_to_bcd (tm_mon t)) 0x1F))
    0x06 (Z.land (_int_to_bcd (tm_year t - 2000)) 0xFF))
    0x10 (Z.land (byte_of r 0x10) 0x7F).

(** The bus traffic of the setter, written out, for a time [t] and a
    status byte [stat]. *)
Definition setter_traffic (t : struct_time) (stat : Z) : list SPI.event :=
  [ SPI.Select; SPI.Write [0x80; Z.land (_int_to_bcd (tm_sec t)) 0x7F];
    SPI.Deselect;
    SPI.Select; SPI.Write [0x81; Z.land (_int_to_bcd (tm_min t)) 0x7F];
    SPI.Deselect;
    SPI.Select; SPI.Write [0x82; Z.land (_int_to_bcd (tm_hour t)) 0x3F];
    SPI.Deselect;
    SPI.Select; SPI.Write [0x83; Z.land (tm_wday t) 0x03];
    SPI.Deselect;
    SPI.Select; SPI.Write [0x84; Z.land (_int_to_bcd (tm_mday t)) 0x3F];
    SPI.Deselect;
    SPI.Select; SPI.Write [0x85; Z.land (_int_to_bcd (tm_mon t)) 0x1F];
    SPI.Deselect;
    SPI.Select; SPI.Write [0x86; Z.land (_int_to_bcd (tm_year t - 2000)) 0xFF];
    SPI.Deselect;
    SPI.Select; SPI.Write [0x10]; SPI.ReadInto 1;
    SPI.Deselect;
    SPI.Select; SPI.Write [0x90; Z.land stat 0x7F];
    SPI.Deselect ].

(** A chip whose registers 0x00, 0x01, ... hold the bytes of [image]. *)
Definition chip_of_image (image : list Z) : SPI.chip :=
  SPI.mk_chip (fun a => nth (Z.to_nat a) image 0) None.

(** The explicit calendar time of the specification's scenario. *)
Definition t_2024_03_15 : struct_time :=
  mk_struct_time 2024 3 15 13 5 30 5 (-1) (-1).

(** 2024-03-15 13:05:30 UTC as seconds since the epoch. *)
Definition secs_2024_03_15 : Z := 1710507930.

(** The same instant as the host's calendar breaks it down (a Friday, the
    75th day of the year). *)
Definition t_2024_utc : struct_time :=
  mk_struct_time 2024 3 15 13 5 30 4 75 0.

(** The setter's argument for that instant. *)
Definition set_2024 : option object := Some (Int secs_2024_03_15).

(** The module just imported and a caller's bytearray holding [l]. *)
Definition boot_with (l : list Z) (c : SPI.chip) (fs : list (option exn))
  : state :=
  mk_state (repeat 0 8) l (idle_bus c fs).

(** ** What is observed of a run *)

(** The module invariant on [_BUFFER = bytearray(8)]: nothing resizes it. *)
Definition buffer_ok (s : state) : Prop := List.length (_BUFFER s) = 8%nat.

(** No link error is scheduled. *)
Definition link_ok (s : state) : Prop := SPI.faults (bus s) = [].

(** The first byte clocked out in a frame: the address byte. *)
Definition first_byte_sent (evs : list SPI.event) : option Z :=
  match evs with
  | SPI.Select :: SPI.Write (b :: _) :: _ => Some b
  | _ => None
  end.

(** Events inside a frame: anything but the chip-select edges. *)
Definition in_frame (e : SPI.event) : bool :=
  match e with
  | SPI.Select | SPI.Deselect => false
  | _ => true
  end.

(** An event of a read transaction: the only bytes written are a single
    address byte with the direction bit clear. *)
Definition read_only (e : SPI.event) : bool :=
  match e with
  | SPI.Write [b] => negb (Z.testbit b 7)
  | SPI.Write _ => false
  | _ => true
  end.

(** One scoped bus session from [s] to [s']: chip-select taken once,
    released once and last, not held afterwards, and a link error raised
    inside is the outcome [r] of the call. *)
Definition scoped_session {A} (s : state) (r : outcome A) (s' : state) : Prop :=
  SPI.selected (bus s') = false /\
  exists evs,
    SPI.log (bus s') = SPI.log (bus s) ++ SPI.Select :: evs ++ [SPI.Deselect] /\
    forallb in_frame evs = true /\
    forall e, In (SPI.Failed e) evs -> r = Raise e.

(** Chip-select is not asserted. *)
Definition idle (s : state) : Prop := SPI.selected (bus s) = false.

(** [m] keeps [P], whether it returns or raises. *)
Definition preserves {A} (P : state -> Prop) (m : M A) : Prop :=
  forall s, P s -> P (snd (m s)).

(** The register file after a burst that stores [data] from address [a]
    on, the address advancing by one (mod 128) per byte. *)
Fixpoint regs_after_burst (r : Z -> Z) (a : Z) (data : list Z) : Z -> Z :=
  match data with
  | [] => r
  | d :: ds => regs_after_burst (SPI.upd r a d) (SPI.next a) ds
  end.

(** The [n] bytes a burst read from address [a] delivers. *)
Fixpoint burst_bytes (r : Z -> Z) (a : Z) (n : nat) : list Z :=
  match n with
  | O => []
  | S k => byte_of r a :: burst_bytes r (SPI.next a) k
  end.

(** What the setter is documented to convert with [localtime]: its
    argument, or epoch zero when none is given. *)
Definition localtime_argument (set_time : option object) : object :=
  match set_time with
  | Some v => v
  | None => Int 0
  end.

(** The frame that writes the status register back: address byte 0x90
    and one data byte. *)
Definition is_status_write (e : SPI.event) : bool :=
  match e with
  | SPI.Write [b; _] => b =? 0x90
  | _ => false
  end.

(** From [s0] to [s] the log has only grown, and unless the growth holds
    a write-back of the status register, register 0x10 is what it was. *)
Definition status_only_by_write_back (s0 s : state) : Prop :=
  exists evs,
    SPI.log (bus s) = SPI.log (bus s0) ++ evs /\
    (existsb is_status_write evs = false -> reg s 0x10 = reg s0 0x10).

(** The [length] argument of the transport functions, defaulted as
    [if length is None: length = len(buf)] does. *)
Definition length_or_len (length : option nat) (buf : list Z) : nat :=
  match length with
  | None => List.length buf
  | Some n => n
  end.

(** The fields each fit the bits the setter's mask keeps for them; every
    calendar time of the years 2000 to 2099 does. *)
Definition calendar_fields_fit (t : struct_time) : Prop :=
  0 <= tm_sec t <= 79 /\ 0 <= tm_min t <= 79 /\ 0 <= tm_hour t <= 39 /\
  0 <= tm_mday t <= 39 /\ 0 <= tm_mon t <= 19 /\
  2000 <= tm_year t <= 2159.

(** The seven bytes the setter computes for registers 0x00 to 0x06. *)
Definition field_bytes (t : struct_time) : list Z :=
  [ Z.land (_int_to_bcd (tm_sec t)) 0x7F;
    Z.land (_int_to_bcd (tm_min t)) 0x7F;
    Z.land (_int_to_bcd (tm_hour t)) 0x3F;
    Z.land (tm_wday t) 0x3;
    Z.land (_int_to_bcd (tm_mday t)) 0x3F;
    Z.land (_int_to_bcd (tm_mon t)) 0x1F;
    Z.land (_int_to_bcd (tm_year t - 2000)) 0xFF ].

(** * Properties *)

(** ** Bit-level facts *)

Section Bits.

Lemma testbit_small o k i :
  0 <= o < 2 ^ k -> 0 <= k <= i -> Z.testbit o i = false.
Proof.
  intros Ho Hk.
  rewrite <- (Z.mod_small o (2 ^ k)) by exact Ho.
  apply Z.mod_pow2_bits_high; exact Hk.
Qed.

Lemma lor_shiftl_add t o k :
  0 <= k -> 0 <= o < 2 ^ k -> Z.lor (Z.shiftl t k) o = t * 2 ^ k + o.
Proof.
  intros Hk Ho.
  assert (Hd : Z.land (Z.shiftl t k) o = 0).
  { apply Z.bits_inj'; intros i Hi.
    rewrite Z.land_spec, Z.bits_0.
    destruct (Z.lt_ge_cases i k) as [Hlt | Hge].
    - rewrite Z.shiftl_spec_low by exact Hlt. reflexivity.
    - rewrite (testbit_small o k i) by lia. apply andb_false_r. }
  rewrite <- Z.shiftl_mul_pow2 by exact Hk.
  rewrite <- Z.lxor_lor by exact Hd.
  symmetry; apply Z.add_nocarry_lxor; exact Hd.
Qed.

(** A value masked to at most eight bits is a byte. *)
Lemma land_byte x m : Z.land m 0xFF = m -> 0 <= Z.land x m <= 255.
Proof.
  intros Hm.
  assert (He : Z.land x m = (Z.land x m) mod 2 ^ 8).
  { rewrite <- Z.land_ones by lia.
    rewrite <- Z.land_assoc.
    change (Z.ones 8) with 0xFF. rewrite Hm. reflexivity. }
  pose proof (Z.mod_pos_bound (Z.land x m) (2 ^ 8) eq_refl) as Hb.
  rewrite <- He in Hb.
  change (2 ^ 8) with 256 in Hb. lia.
Qed.

Lemma is_byte_land x m : Z.land m 0xFF = m -> is_byte (Z.land x m) = true.
Proof.
  intros Hm. pose proof (land_byte x m Hm) as Hb.
  unfold is_byte. apply andb_true_intro; split; apply Z.leb_le; lia.
Qed.

Lemma land_land x m k : Z.land (Z.land x m) k = Z.land x (Z.land m k).
Proof. symmetry; apply Z.land_assoc. Qed.

(** The write header of an address byte keeps it and sets bit 7. *)
Lemma write_header_byte a :
  0 <= a <= 255 -> Z.land (Z.lor a 0x80) 0xFF = Z.lor a 0x80.
Proof.
  intros Ha. apply Z.bits_inj'; intros i Hi.
  rewrite Z.land_spec, Z.lor_spec.
  destruct (Z.lt_ge_cases i 8) as [Hlt | Hge].
  - change 0xFF with (Z.ones 8).
    rewrite Z.ones_spec_low by lia. apply andb_true_r.
  - rewrite (testbit_small a 8 i), (testbit_small 0x80 8 i) by (simpl; lia).
    reflexivity.
Qed.

Lemma write_header_bit7 a : Z.testbit (Z.land (Z.lor a 0x80) 0xFF) 7 = true.
Proof.
  rewrite Z.land_spec, Z.lor_spec.
  change (Z.testbit 0x80 7) with true. change (Z.testbit 0xFF 7) with true.
  rewrite orb_true_r. reflexivity.
Qed.

Lemma write_header_addr a :
  Z.land (Z.land (Z.lor a 0x80) 0xFF) 0x7F = Z.land a 0x7F.
Proof.
  rewrite land_land. change (Z.land 0xFF 0x7F) with 0x7F.
  rewrite Z.land_lor_distr_l. change (Z.land 0x80 0x7F) with 0.
  apply Z.lor_0_r.
Qed.

Lemma read_header_bit7 a : Z.testbit (Z.land a 0x7F) 7 = false.
Proof.
  rewrite Z.land_spec. change (Z.testbit 0x7F 7) with false.
  apply andb_false_r.
Qed.

Lemma land_3_mod_4 w : Z.land w 0x03 = w mod 4.
Proof. change 0x03 with (Z.ones 2). apply Z.land_ones. lia. Qed.

(** [(x & 0x80) == 0x80] tests bit 7. *)
Lemma land_0x80_eqb x : (Z.land x 0x80 =? 0x80) = Z.testbit x 7.
Proof.
  assert (H : Z.land x 0x80 = if Z.testbit x 7 then 0x80 else 0).
  { apply Z.bits_inj'; intros i Hi.
    rewrite Z.land_spec.
    change 0x80 with (2 ^ 7) at 1.
    rewrite Z.pow2_bits_eqb by lia.
    destruct (Z.eqb_spec 7 i) as [<- | Hne].
    - rewrite andb_true_r. destruct (Z.testbit x 7); reflexivity.
    - rewrite andb_false_r.
      destruct (Z.testbit x 7); [| symmetry; apply Z.bits_0].
      change 0x80 with (2 ^ 7).
      rewrite Z.pow2_bits_eqb by lia.
      symmetry; apply Z.eqb_neq; exact Hne. }
  rewrite H. destruct (Z.testbit x 7); reflexivity.
Qed.

End Bits.

(** ** The BCD codec *)

Section Codec.

(** Decoding reads the two nibbles of the low byte. *)
Lemma _bcd_to_int_nibbles x :
  _bcd_to_int x = ((x / 16) mod 16) * 10 + x mod 16.
Proof.
  unfold _bcd_to_int.
  change 0xF0 with (Z.shiftl (Z.ones 4) 4).
  rewrite Z.shiftr_land, Z.shiftr_shiftl_l by lia.
  change (Z.shiftl (Z.ones 4) (4 - 4)) with (Z.ones 4).
  change 0x0F with (Z.ones 4).
  rewrite !Z.land_ones, Z.shiftr_div_pow2 by lia.
  reflexivity.
Qed.

(** Below one hundred only the two low nibbles are used, and the
    misplaced thousands shift does not show. *)
Lemma _int_to_bcd_two_digits n :
  0 <= n <= 99 -> _int_to_bcd n = (n / 10) * 16 + n mod 10.
Proof.
  intros Hn. unfold _int_to_bcd.
  rewrite (Z.div_small n 1000), (Z.div_small n 100) by lia.
  change (Z.lor (Z.shiftl (Z.land 0 15) 18) (Z.shiftl (Z.land 0 15) 8))
    with 0.
  rewrite Z.lor_0_l.
  change 0x0F with (Z.ones 4).
  assert (Ht : 0 <= n / 10 < 10) by (Z.div_mod_to_equations; lia).
  assert (Ho : 0 <= n mod 10 < 10) by (apply Z.mod_pos_bound; lia).
  rewrite !Z.land_ones, !Z.mod_small by (simpl; lia).
  apply (lor_shiftl_add (n / 10) (n mod 10) 4); simpl; lia.
Qed.

Lemma int_to_bcd_spec_two_digits n :
  0 <= n <= 99 -> int_to_bcd_spec n = (n / 10) * 16 + n mod 10.
Proof.
  intros Hn. unfold int_to_bcd_spec.
  rewrite (Z.div_small n 1000), (Z.div_small n 100) by lia.
  change (Z.lor (Z.shiftl (0 mod 10) 12) (Z.shiftl (0 mod 10) 8)) with 0.
  rewrite Z.lor_0_l.
  assert (Ht : 0 <= n / 10 < 10) by (Z.div_mod_to_equations; lia).
  assert (Ho : 0 <= n mod 10 < 10) by (apply Z.mod_pos_bound; lia).
  rewrite (Z.mod_small (n / 10)) by lia.
  apply (lor_shiftl_add (n / 10) (n mod 10) 4); simpl; lia.
Qed.

(** On the values the clock fields take, the code and the described
    packing agree. *)
Lemma _int_to_bcd_meets_spec_below_100 n :
  0 <= n <= 99 -> _int_to_bcd n = int_to_bcd_spec n.
Proof.
  intros Hn.
  rewrite _int_to_bcd_two_digits, int_to_bcd_spec_two_digits by exact Hn.
  reflexivity.
Qed.

(** C2: at v = 1000 the code packs the thousands digit at bit 18 and
    leaves the undivided hundreds and tens in the nibbles at bits 8 and 4,
    so it returns 0x40A40 where the described packing gives 0x1000; at
    v = 100 it returns 0x1A0 where the packing gives 0x100. *)
Theorem C2_int_to_bcd_departs_from_packing :
  _int_to_bcd 1000 = 0x40A40 /\ int_to_bcd_spec 1000 = 0x1000 /\
  _int_to_bcd 100 = 0x1A0 /\ int_to_bcd_spec 100 = 0x100.
Proof. repeat split; reflexivity. Qed.

(** C4: BCD round trip, [bcd_to_int(int_to_bcd(n)) = n] for every n from
    0 to 99. *)
Theorem C4_bcd_round_trip n :
  0 <= n <= 99 -> _bcd_to_int (_int_to_bcd n) = n.
Proof.
  intros Hn.
  rewrite _int_to_bcd_two_digits, _bcd_to_int_nibbles by exact Hn.
  assert (Ht : 0 <= n / 10 < 10) by (Z.div_mod_to_equations; lia).
  assert (Ho : 0 <= n mod 10 < 10) by (apply Z.mod_pos_bound; lia).
  pose proof (Z.div_mod n 10 ltac:(lia)) as Hdm.
  replace ((n / 10 * 16 + n mod 10) / 16) with (n / 10)
    by (apply Z.div_unique with (r := n mod 10); lia).
  replace ((n / 10 * 16 + n mod 10) mod 16) with (n mod 10)
    by (apply Z.mod_unique with (q := n / 10); lia).
  rewrite (Z.mod_small (n / 10)) by lia.
  lia.
Qed.

Lemma C4_bcd_round_trip_witness :
  0 <= 59 <= 99 /\ _bcd_to_int (_int_to_bcd 59) = 59.
Proof.
  split; [lia | apply (C4_bcd_round_trip 59); lia].
Defined.

End Codec.

(** ** Running the driver symbolically *)

Ltac is_pconst p :=
  lazymatch p with
  | xH => idtac
  | xO ?q => is_pconst q
  | xI ?q => is_pconst q
  end.

Ltac is_zconst z :=
  lazymatch z with
  | Z0 => idtac
  | Zpos ?p => is_pconst p
  | Zneg ?p => is_pconst p
  end.

Ltac fold_const f a b :=
  is_zconst a; is_zconst b;
  let v := eval vm_compute in (f a b) in change (f a b) with v.

(** Evaluate the bit operations whose operands are both literals. *)
Ltac fold_consts :=
  repeat match goal with
  | |- context [Z.land ?a ?b] => fold_const Z.land a b
  | |- context [Z.lor ?a ?b] => fold_const Z.lor a b
  | |- context [Z.testbit ?a ?b] => fold_const Z.testbit a b
  end.

(** One round of evaluation that leaves arithmetic on unknowns alone. *)
Ltac run1 :=
  cbv [set_bus save load SPI.enter SPI.exit SPI.pop_fault SPI.chip_xfer
       SPI.clock];
  cbn -[Z.land Z.lor Z.testbit Z.shiftl Z.shiftr Z.div Z.modulo Z.add Z.mul
        _int_to_bcd _bcd_to_int].

Ltac run := repeat (progress (run1; fold_consts)).

Ltac unfold_transport :=
  unfold DS1343._read_u8, DS1343._read_into, DS1343._write_from,
    DS1343._write_u8, with_device, bind, ret, len, setitem, getitem,
    device_write, device_readinto, SPI.write, SPI.readinto.

(** Take one [bind] whose first action is described by the equation [L]. *)
Ltac step L := unfold bind at 1; rewrite L; cbv beta iota zeta.

(** Name the eight bytes of [_BUFFER]. *)
Ltac open_buffer H :=
  unfold buffer_ok in H; cbn [_BUFFER] in H;
  match type of H with
  | List.length ?B = _ =>
      do 8 (let b := fresh "b" in destruct B as [| b B]; [discriminate H |]);
      destruct B; [clear H | discriminate H]
  end.

Section Transport.

Variables (cb : list Z) (sel : bool) (r : Z -> Z) (p : option (bool * Z))
          (lg : list SPI.event).

Lemma land_mask_byte x m :
  Z.land m 0xFF = m -> Z.land (Z.land x m) 0xFF = Z.land x m.
Proof. intros Hm. rewrite land_land, Hm. reflexivity. Qed.

Lemma byte_of_upd_other a v x :
  (x =? a) = false -> byte_of (SPI.upd r a v) x = byte_of r x.
Proof. intros H. unfold byte_of, SPI.upd. rewrite H. reflexivity. Qed.

Lemma byte_of_upd_same a v : byte_of (SPI.upd r a v) a = Z.land v 0xFF.
Proof. unfold byte_of, SPI.upd. rewrite Z.eqb_refl. reflexivity. Qed.

(** A single-byte register write on a healthy link. *)
Lemma _write_u8_ok a v b0 b1 rest :
  DS1343._write_u8 a v
    (mk_state (b0 :: b1 :: rest) cb
       (SPI.mk_bus sel (SPI.mk_chip r p) [] lg)) =
  (Return tt,
   mk_state (Z.land (Z.lor a 0x80) 0xFF :: Z.land v 0xFF :: rest) cb
     (SPI.mk_bus false
        (SPI.mk_chip (SPI.upd r (Z.land a 0x7F) (Z.land v 0xFF)) None) []
        (lg ++ [SPI.Select;
                SPI.Write [Z.land (Z.lor a 0x80) 0xFF; Z.land v 0xFF];
                SPI.Deselect]))).
Proof.
  unfold_transport. run.
  rewrite !is_byte_land by reflexivity. run.
  rewrite write_header_bit7, write_header_addr. run.
  rewrite <- ?app_assoc. reflexivity.
Qed.

(** A single-byte register read on a healthy link. *)
Lemma _read_u8_ok a b0 rest :
  DS1343._read_u8 a
    (mk_state (b0 :: rest) cb (SPI.mk_bus sel (SPI.mk_chip r p) [] lg)) =
  (Return (byte_of r (Z.land a 0x7F)),
   mk_state (byte_of r (Z.land a 0x7F) :: rest) cb
     (SPI.mk_bus false (SPI.mk_chip r None) []
        (lg ++ [SPI.Select; SPI.Write [Z.land a 0x7F]; SPI.ReadInto 1;
                SPI.Deselect]))).
Proof.
  unfold_transport. run.
  rewrite !is_byte_land by reflexivity. run.
  rewrite read_header_bit7. run.
  rewrite land_land. change (Z.land 127 127) with 127.
  rewrite <- ?app_assoc. reflexivity.
Qed.

End Transport.

(** Resolve the reads of a register file written at literal addresses. *)
Ltac lookup_regs :=
  repeat match goal with
  | |- context [byte_of (SPI.upd ?r0 ?a ?v) ?x] =>
      first [ rewrite (byte_of_upd_same r0 a v)
            | rewrite (byte_of_upd_other r0 a v x) by reflexivity ]
  end.

Section Facade.

Variables (cb : list Z) (sel : bool) (r : Z -> Z) (p : option (bool * Z))
          (lg : list SPI.event).

(** The getter on a healthy link: one frame, seven bytes from offset 0. *)
Lemma datetime_ok b0 b1 b2 b3 b4 b5 b6 b7 :
  DS1343.datetime
    (mk_state [b0; b1; b2; b3; b4; b5; b6; b7] cb
       (SPI.mk_bus sel (SPI.mk_chip r p) [] lg)) =
  (Return (mk_struct_time
             (_bcd_to_int (byte_of r 6) + 2000)
             (_bcd_to_int (byte_of r 5))
             (_bcd_to_int (byte_of r 4))
             (_bcd_to_int (byte_of r 2))
             (_bcd_to_int (byte_of r 1))
             (_bcd_to_int (byte_of r 0))
             (Z.land (byte_of r 3) 0x7) (-1) (-1)),
   mk_state [byte_of r 0; byte_of r 1; byte_of r 2; byte_of r 3;
             byte_of r 4; byte_of r 5; byte_of r 6; b7] cb
     (SPI.mk_bus false (SPI.mk_chip r None) []
        (lg ++ [SPI.Select; SPI.Write [0]; SPI.ReadInto 7;
                SPI.Deselect]))).
Proof.
  unfold DS1343.datetime, _S_REG. unfold_transport. run.
  rewrite <- ?app_assoc. reflexivity.
Qed.

(** The validity query on a healthy link. *)
Lemma valid_ok b0 rest :
  DS1343.valid
    (mk_state (b0 :: rest) cb (SPI.mk_bus sel (SPI.mk_chip r p) [] lg)) =
  (Return (negb (Z.testbit (byte_of r 0x10) 7)),
   mk_state (byte_of r 0x10 :: rest) cb
     (SPI.mk_bus false (SPI.mk_chip r None) []
        (lg ++ [SPI.Select; SPI.Write [0x10]; SPI.ReadInto 1;
                SPI.Deselect]))).
Proof.
  unfold DS1343.valid. step _read_u8_ok. unfold ret.
  rewrite land_0x80_eqb. fold_consts. reflexivity.
Qed.

(** The nine transactions of the setter on a healthy link. *)
Lemma write_fields_ok t b0 b1 b2 b3 b4 b5 b6 b7 :
  DS1343.write_fields t
    (mk_state [b0; b1; b2; b3; b4; b5; b6; b7] cb
       (SPI.mk_bus sel (SPI.mk_chip r p) [] lg)) =
  (Return tt,
   mk_state [0x90; Z.land (byte_of r 0x10) 0x7F; b2; b3; b4; b5; b6; b7] cb
     (SPI.mk_bus false (SPI.mk_chip (regs_written t r) None) []
        (lg ++ setter_traffic t (byte_of r 0x10)))).
Proof.
  unfold DS1343.write_fields. cbv zeta.
  do 7 step _write_u8_ok.
  step _read_u8_ok.
  rewrite _write_u8_ok.
  rewrite !land_mask_byte by reflexivity.
  fold_consts.
  unfold regs_written, setter_traffic.
  lookup_regs.
  rewrite ?land_mask_byte by reflexivity.
  rewrite <- ?app_assoc.
  reflexivity.
Qed.

End Facade.

(** ** The facade on a healthy link *)

Ltac open_state s Hb Hl :=
  destruct s as [B cb [sl [r p] fs lg]];
  open_buffer Hb;
  unfold link_ok in Hl; cbn [bus SPI.faults] in Hl; subst fs.

Section GetTime.

(** C6: get-time is one burst read of seven bytes from offset 0x00; of
    the register image, bytes 0, 1, 2, 4, 5 are BCD-decoded into seconds,
    minutes, hours, day and month, byte 3 masked with 0x07 is the weekday,
    and the decoded byte 6 plus 2000 is the year. *)
Theorem C6_get_time_decodes_burst s :
  buffer_ok s -> link_ok s ->
  fst (DS1343.datetime s) =
    Return (mk_struct_time
              (_bcd_to_int (reg s 6) + 2000)
              (_bcd_to_int (reg s 5))
              (_bcd_to_int (reg s 4))
              (_bcd_to_int (reg s 2))
              (_bcd_to_int (reg s 1))
              (_bcd_to_int (reg s 0))
              (Z.land (reg s 3) 0x07) (-1) (-1)) /\
  SPI.log (bus (snd (DS1343.datetime s))) =
    SPI.log (bus s) ++
    [SPI.Select; SPI.Write [0x00]; SPI.ReadInto 7; SPI.Deselect].
Proof.
  intros Hb Hl. open_state s Hb Hl.
  rewrite datetime_ok. split; reflexivity.
Qed.

Lemma C6_get_time_decodes_burst_witness :
  let s := boot (chip_of_image [0x30; 0x05; 0x13; 0x05; 0x15; 0x03; 0x24]) [] in
  (buffer_ok s /\ link_ok s) /\
  fst (DS1343.datetime s) =
    Return (mk_struct_time 2024 3 15 13 5 30 5 (-1) (-1)) /\
  SPI.log (bus (snd (DS1343.datetime s))) =
    [SPI.Select; SPI.Write [0x00]; SPI.ReadInto 7; SPI.Deselect].
Proof.
  intros s. split; [split; reflexivity |].
  exact (C6_get_time_decodes_burst s eq_refl eq_refl).
Defined.

(** C8: get-valid reads the status register at 0x10 and is true exactly
    when bit 7 of the byte read is 0. *)
Theorem C8_valid_reads_osf s :
  buffer_ok s -> link_ok s ->
  fst (DS1343.valid s) = Return (negb (Z.testbit (reg s 0x10) 7)) /\
  SPI.log (bus (snd (DS1343.valid s))) =
    SPI.log (bus s) ++
    [SPI.Select; SPI.Write [0x10]; SPI.ReadInto 1; SPI.Deselect].
Proof.
  intros Hb Hl. open_state s Hb Hl.
  rewrite valid_ok. split; reflexivity.
Qed.

Lemma C8_valid_reads_osf_witness :
  let s := boot (SPI.mk_chip (SPI.upd (fun _ => 0) 0x10 0x80) None) [] in
  (buffer_ok s /\ link_ok s) /\
  fst (DS1343.valid s) = Return false /\
  SPI.log (bus (snd (DS1343.valid s))) =
    [SPI.Select; SPI.Write [0x10]; SPI.ReadInto 1; SPI.Deselect].
Proof.
  intros s. split; [split; reflexivity |].
  exact (C8_valid_reads_osf s eq_refl eq_refl).
Defined.

End GetTime.

Section SetTime.

Variable localtime : object -> outcome struct_time.

(** The test of the setter is on the class [set]: an argument, whatever
    it is, goes to [localtime]. *)
Lemma choose_time_struct_asks_localtime v :
  DS1343.choose_time_struct localtime (Some v) = localtime v.
Proof. reflexivity. Qed.

Lemma datetime_setter_resolved set_time ts s :
  DS1343.choose_time_struct localtime set_time = Return ts ->
  DS1343.datetime_setter localtime set_time s = DS1343.write_fields ts s.
Proof.
  intros H. unfold DS1343.datetime_setter, bind, lift.
  rewrite H. reflexivity.
Qed.

Lemma datetime_setter_rejected set_time e s :
  DS1343.choose_time_struct localtime set_time = Raise e ->
  DS1343.datetime_setter localtime set_time s = (Raise e, s).
Proof.
  intros H. unfold DS1343.datetime_setter, bind, lift.
  rewrite H. reflexivity.
Qed.

Lemma choose_time_struct_spec set_time :
  DS1343.choose_time_struct localtime set_time =
  localtime (localtime_argument set_time).
Proof. destruct set_time; reflexivity. Qed.

(** X21: for every argument that the host's [localtime] converts (the
    argument itself, or 0 when it is [None]) to a time [ts], fields any
    integers, on a link that does not fail: set-time issues seven
    single-byte register writes, each in a frame of its own, in the order
    seconds (0x00), minutes (0x01), hours (0x02), weekday (0x03), day
    (0x04), month (0x05), year (0x06), with the masks 0x7F, 0x7F, 0x3F,
    0x03, 0x3F, 0x1F, 0xFF applied, and only then reads the status
    register 0x10, clears bit 7 and writes it back. *)
Theorem X21_set_time_write_order set_time ts s :
  localtime (localtime_argument set_time) = Return ts ->
  buffer_ok s -> link_ok s ->
  let run := DS1343.datetime_setter localtime set_time s in
  fst run = Return tt /\
  SPI.log (bus (snd run)) =
    SPI.log (bus s) ++
    [ SPI.Select; SPI.Write [0x80; Z.land (_int_to_bcd (tm_sec ts)) 0x7F];
      SPI.Deselect;
      SPI.Select; SPI.Write [0x81; Z.land (_int_to_bcd (tm_min ts)) 0x7F];
      SPI.Deselect;
      SPI.Select; SPI.Write [0x82; Z.land (_int_to_bcd (tm_hour ts)) 0x3F];
      SPI.Deselect;
      SPI.Select; SPI.Write [0x83; Z.land (tm_wday ts) 0x03];
      SPI.Deselect;
      SPI.Select; SPI.Write [0x84; Z.land (_int_to_bcd (tm_mday ts)) 0x3F];
      SPI.Deselect;
      SPI.Select; SPI.Write [0x85; Z.land (_int_to_bcd (tm_mon ts)) 0x1F];
      SPI.Deselect;
      SPI.Select;
      SPI.Write [0x86; Z.land (_int_to_bcd (tm_year ts - 2000)) 0xFF];
      SPI.Deselect;
      SPI.Select; SPI.Write [0x10]; SPI.ReadInto 1;
      SPI.Deselect;
      SPI.Select; SPI.Write [0x90; Z.land (reg s 0x10) 0x7F];
      SPI.Deselect ] /\
  reg (snd run) 0x10 = Z.land (reg s 0x10) 0x7F.
Proof.
  intros Hts Hb Hl run. subst run.
  rewrite <- choose_time_struct_spec in Hts.
  rewrite (datetime_setter_resolved _ _ _ Hts).
  open_state s Hb Hl.
  rewrite write_fields_ok.
  split; [reflexivity | split; [reflexivity |]].
  unfold reg. cbn [snd bus SPI.device SPI.regs].
  unfold regs_written. rewrite byte_of_upd_same.
  apply land_mask_byte. reflexivity.
Qed.

(** The registers the getter reads back after the setter. *)
Lemma set_then_get ts b0 b1 b2 b3 b4 b5 b6 b7 cb sel r p lg :
  (DS1343.write_fields ts ;; DS1343.datetime)
    (mk_state [b0; b1; b2; b3; b4; b5; b6; b7] cb
       (SPI.mk_bus sel (SPI.mk_chip r p) [] lg)) =
  (Return (mk_struct_time
             (_bcd_to_int (Z.land (_int_to_bcd (tm_year ts - 2000)) 0xFF)
              + 2000)
             (_bcd_to_int (Z.land (_int_to_bcd (tm_mon ts)) 0x1F))
             (_bcd_to_int (Z.land (_int_to_bcd (tm_mday ts)) 0x3F))
             (_bcd_to_int (Z.land (_int_to_bcd (tm_hour ts)) 0x3F))
             (_bcd_to_int (Z.land (_int_to_bcd (tm_min ts)) 0x7F))
             (_bcd_to_int (Z.land (_int_to_bcd (tm_sec ts)) 0x7F))
             (Z.land (tm_wday ts) 0x03) (-1) (-1)),
   mk_state [Z.land (_int_to_bcd (tm_sec ts)) 0x7F;
             Z.land (_int_to_bcd (tm_min ts)) 0x7F;
             Z.land (_int_to_bcd (tm_hour ts)) 0x3F;
             Z.land (tm_wday ts) 0x03;
             Z.land (_int_to_bcd (tm_mday ts)) 0x3F;
             Z.land (_int_to_bcd (tm_mon ts)) 0x1F;
             Z.land (_int_to_bcd (tm_year ts - 2000)) 0xFF;
             b7] cb
     (SPI.mk_bus false (SPI.mk_chip (regs_written ts r) None) []
        ((lg ++ setter_traffic ts (byte_of r 0x10)) ++
         [SPI.Select; SPI.Write [0]; SPI.ReadInto 7; SPI.Deselect]))).
Proof.
  step write_fields_ok. rewrite datetime_ok.
  unfold regs_written.
  lookup_regs.
  rewrite !land_mask_byte by reflexivity.
  rewrite (land_land (tm_wday ts)). fold_consts.
  reflexivity.
Qed.

(** X22: for every argument that the host's [localtime] converts to a
    time with weekday [w], on a link that does not fail, set-time writes
    [w & 0x03] to register 0x03; get-time returns the byte of register
    0x03 masked with 0x07, whatever that byte is; so for [w] in 0..6
    get-time after such a set-time yields [w & 0x03], which for 4, 5, 6
    is 0, 1, 2. *)
Theorem X22_weekday_masks set_time ts s s' :
  localtime (localtime_argument set_time) = Return ts ->
  buffer_ok s -> link_ok s ->
  buffer_ok s' -> link_ok s' ->
  0 <= tm_wday ts <= 6 ->
  let s1 := snd (DS1343.datetime_setter localtime set_time s) in
  (exists before after,
      SPI.log (bus s1) =
      SPI.log (bus s) ++ before ++
      [SPI.Select; SPI.Write [0x83; Z.land (tm_wday ts) 0x03]; SPI.Deselect]
      ++ after) /\
  reg s1 0x03 = Z.land (tm_wday ts) 0x03 /\
  (exists t',
      fst (DS1343.datetime s') = Return t' /\
      tm_wday t' = Z.land (reg s' 0x03) 0x07) /\
  exists t,
    fst (DS1343.datetime s1) = Return t /\
    tm_wday t = Z.land (tm_wday ts) 0x03 /\
    (4 <= tm_wday ts -> tm_wday t = tm_wday ts - 4).
Proof.
  intros Hts Hb Hl Hb' Hl' Hw s1. subst s1.
  rewrite <- choose_time_struct_spec in Hts.
  rewrite (datetime_setter_resolved _ _ _ Hts).
  split; [| split; [| split]].
  - open_state s Hb Hl. rewrite write_fields_ok.
    cbn [snd bus SPI.log]. unfold setter_traffic.
    eexists (_ :: _ :: _ :: _ :: _ :: _ :: _ :: _ :: _ :: nil).
    eexists. cbn [app]. reflexivity.
  - open_state s Hb Hl. rewrite write_fields_ok.
    unfold reg, regs_written. cbn [snd bus SPI.device SPI.regs].
    lookup_regs. apply land_mask_byte. reflexivity.
  - open_state s' Hb' Hl'. rewrite datetime_ok.
    eexists. split; reflexivity.
  - open_state s Hb Hl. rewrite write_fields_ok. cbn [snd].
    rewrite datetime_ok. eexists. split; [reflexivity |].
    cbn [tm_wday]. unfold regs_written. lookup_regs.
    rewrite land_mask_byte by reflexivity.
    assert (Hm : Z.land (Z.land (tm_wday ts) 0x03) 0x07
                 = Z.land (tm_wday ts) 0x03).
    { rewrite land_land. reflexivity. }
    split; [exact Hm |].
    intros H4. rewrite Hm, land_3_mod_4.
    symmetry. apply Z.mod_unique with (q := 1); lia.
Qed.

End SetTime.

Lemma X21_set_time_write_order_witness :
  let s := boot blank_chip [] in
  let run := DS1343.datetime_setter Host.localtime_utc set_2024 s in
  (Host.localtime_utc (localtime_argument set_2024) = Return t_2024_utc /\
   buffer_ok s /\ link_ok s) /\
  fst run = Return tt /\
  SPI.log (bus (snd run)) =
    [ SPI.Select; SPI.Write [0x80; 0x30]; SPI.Deselect;
      SPI.Select; SPI.Write [0x81; 0x05]; SPI.Deselect;
      SPI.Select; SPI.Write [0x82; 0x13]; SPI.Deselect;
      SPI.Select; SPI.Write [0x83; 0x00]; SPI.Deselect;
      SPI.Select; SPI.Write [0x84; 0x15]; SPI.Deselect;
      SPI.Select; SPI.Write [0x85; 0x03]; SPI.Deselect;
      SPI.Select; SPI.Write [0x86; 0x24]; SPI.Deselect;
      SPI.Select; SPI.Write [0x10]; SPI.ReadInto 1; SPI.Deselect;
      SPI.Select; SPI.Write [0x90; 0x00]; SPI.Deselect ] /\
  reg (snd run) 0x10 = 0.
Proof.
  intros s run.
  split; [split; [reflexivity | split; reflexivity] |].
  exact (X21_set_time_write_order Host.localtime_utc set_2024 t_2024_utc s
           eq_refl eq_refl eq_refl).
Defined.

Lemma X22_weekday_masks_witness :
  let s := boot blank_chip [] in
  let s' := boot (SPI.mk_chip (fun _ => 0xFF) None) [] in
  let s1 := snd (DS1343.datetime_setter Host.localtime_utc set_2024 s) in
  (Host.localtime_utc (localtime_argument set_2024) = Return t_2024_utc /\
   buffer_ok s /\ link_ok s /\ buffer_ok s' /\ link_ok s' /\ 0 <= 4 <= 6) /\
  (exists before after,
      SPI.log (bus s1) =
      SPI.log (bus s) ++ before ++
      [SPI.Select; SPI.Write [0x83; 0x00]; SPI.Deselect] ++ after) /\
  reg s1 0x03 = 0 /\
  (exists t',
      fst (DS1343.datetime s') = Return t' /\
      tm_wday t' = 7) /\
  exists t,
    fst (DS1343.datetime s1) = Return t /\
    tm_wday t = 0 /\
    (4 <= 4 -> tm_wday t = 4 - 4).
Proof.
  intros s s' s1.
  assert (Hw : 0 <= 4 <= 6) by lia.
  split; [repeat (split; [reflexivity |]); exact Hw |].
  exact (X22_weekday_masks Host.localtime_utc set_2024 t_2024_utc s s'
           eq_refl eq_refl eq_refl eq_refl eq_refl Hw).
Defined.

(** ** The scenario of the specification *)

Section Scenario.

(** The seven field writes, fed the explicit time directly, do read back
    as the scenario expects. *)
Lemma write_fields_then_datetime_2024 :
  fst ((DS1343.write_fields t_2024_03_15 ;; DS1343.datetime)
         (boot blank_chip [])) =
  Return (mk_struct_time 2024 3 15 13 5 30 1 (-1) (-1)).
Proof. unfold boot, idle_bus, blank_chip. cbn [repeat]. rewrite set_then_get. reflexivity. Qed.

(** So does the setter when the same instant is given as epoch seconds. *)
Lemma epoch_seconds_then_datetime_2024 :
  fst ((DS1343.datetime_setter Host.localtime_utc
          (Some (Int secs_2024_03_15)) ;; DS1343.datetime)
         (boot blank_chip [])) =
  Return (mk_struct_time 2024 3 15 13 5 30 0 (-1) (-1)).
Proof.
  unfold bind at 1.
  rewrite (datetime_setter_resolved Host.localtime_utc _
             (mk_struct_time 2024 3 15 13 5 30 4 75 0)) by reflexivity.
  change (fst ((DS1343.write_fields (mk_struct_time 2024 3 15 13 5 30 4 75 0) ;;
                DS1343.datetime) (boot blank_chip [])) =
          Return (mk_struct_time 2024 3 15 13 5 30 0 (-1) (-1))).
  unfold boot, idle_bus, blank_chip. cbn [repeat]. rewrite set_then_get.
  reflexivity.
Qed.

(** C1: given the explicit time 2024-03-15 13:05:30 (weekday 5), the
    setter never takes it as the time to write: whatever the host's
    [localtime] is, the argument is handed to it; with a [localtime] that
    takes numbers only the call raises [TypeError] before any bus
    traffic, and get-time then returns what the untouched registers
    hold (2000-00-00 00:00:00 on a blank chip), not the time given. *)
Theorem C1_explicit_time_never_written :
  (forall localtime t,
      DS1343.choose_time_struct localtime (Some (StructTime t)) =
      localtime (StructTime t)) /\
  DS1343.datetime_setter Host.localtime_utc
    (Some (StructTime t_2024_03_15)) (boot blank_chip []) =
    (Raise TypeError, boot blank_chip []) /\
  fst ((DS1343.datetime_setter Host.localtime_utc
          (Some (StructTime t_2024_03_15)) ;; DS1343.datetime)
         (boot blank_chip [])) = Raise TypeError /\
  fst (DS1343.datetime (boot blank_chip [])) =
    Return (mk_struct_time 2000 0 0 0 0 0 0 (-1) (-1)).
Proof.
  split; [intros localtime t; reflexivity |].
  split; [reflexivity |].
  split; [reflexivity |].
  unfold boot, idle_bus, blank_chip. cbn [repeat].
  rewrite datetime_ok. reflexivity.
Qed.

(** C7: given the explicit time 2024-03-15 13:05:30, set-time issues none
    of the seven register writes and no status read or write-back: the
    argument goes to [localtime] (for every [localtime]), which raises
    [TypeError] on it, and the bus log stays empty and the state as it
    was.  The same instant given as epoch seconds does produce the
    traffic. *)
Theorem C7_explicit_time_issues_no_write :
  let s := boot blank_chip [] in
  let run :=
    DS1343.datetime_setter Host.localtime_utc
      (Some (StructTime t_2024_03_15)) s in
  (forall localtime t,
      DS1343.choose_time_struct localtime (Some (StructTime t)) =
      localtime (StructTime t)) /\
  fst run = Raise TypeError /\
  SPI.log (bus (snd run)) = [] /\
  snd run = s /\
  List.length
    (SPI.log (bus (snd (DS1343.datetime_setter Host.localtime_utc
                          set_2024 s)))) = 28%nat.
Proof.
  intros s run.
  split; [intros localtime t; reflexivity |].
  repeat split; reflexivity.
Qed.

(** C3: given the explicit time with weekday 5 on a chip whose weekday
    register holds 7, set-time raises [TypeError] without writing, and
    get-time afterwards yields weekday 7, not 5 & 0x03 = 1. *)
Theorem C3_explicit_weekday_not_written :
  let s := boot (SPI.mk_chip (SPI.upd (fun _ => 0) 0x03 0x07) None) [] in
  let run :=
    DS1343.datetime_setter Host.localtime_utc
      (Some (StructTime t_2024_03_15)) s in
  tm_wday t_2024_03_15 = 5 /\
  fst run = Raise TypeError /\
  snd run = s /\
  exists t,
    fst (DS1343.datetime (snd run)) = Return t /\
    tm_wday t = 7 /\
    tm_wday t <> Z.land 5 0x03.
Proof.
  intros s run.
  split; [reflexivity |]. split; [reflexivity |]. split; [reflexivity |].
  eexists. split; [reflexivity |]. split; [reflexivity |].
  cbn. discriminate.
Qed.

(** X6: after any set-time on a healthy link the time is reported valid,
    whatever the status register held before. *)
Lemma valid_after_set_time localtime set_time ts s :
  DS1343.choose_time_struct localtime set_time = Return ts ->
  buffer_ok s -> link_ok s ->
  fst ((DS1343.datetime_setter localtime set_time ;; DS1343.valid) s) =
  Return true.
Proof.
  intros Hts Hb Hl. unfold bind at 1.
  rewrite (datetime_setter_resolved _ _ _ _ Hts).
  open_state s Hb Hl.
  rewrite write_fields_ok, valid_ok. cbn [fst].
  unfold regs_written. lookup_regs.
  rewrite land_mask_byte by reflexivity.
  rewrite read_header_bit7. reflexivity.
Qed.

End Scenario.

(** ** The transport on any link, failing or not *)

(** The cases of a fault schedule that two transfers can tell apart. *)
Ltac split_faults fs :=
  destruct fs as [| [? |] [| [? |] ?]].

Ltac run_transport :=
  unfold_transport;
  repeat (progress (run; rewrite ?is_byte_land by reflexivity)).

(** Exhibit the events a call appended to the log. *)
Ltac show_traffic :=
  cbn [fst snd bus SPI.log SPI.device SPI.regs];
  eexists; split; [rewrite <- ?app_assoc; cbn [app]; reflexivity |].

(** Close a [scoped_session] goal once the call has been run. *)
Ltac close_session :=
  unfold scoped_session; cbn [fst snd bus SPI.selected SPI.log];
  split; [reflexivity |];
  rewrite <- ?app_assoc; cbn [app];
  match goal with
  | |- exists evs, ?lg ++ SPI.Select :: ?l = @?rhs evs /\ @?Q evs =>
      exists (removelast l); cbn [removelast]
  end;
  split; [reflexivity | split; [reflexivity |]];
  cbn [In];
  let x := fresh "x" in
  let H := fresh "H" in
  intros x H;
  repeat (destruct H as [H | H]); try discriminate H; try contradiction;
  try (injection H as <-; reflexivity).

Section Framing.

(** C5: a register write sends [address | 0x80] first and a register read
    sends [address & 0x7F] first, for every address byte, so bit 7 of the
    first byte is the direction whatever the caller's bit 7 was. *)
Theorem C5_direction_bit_framing address val buf length s :
  0 <= address <= 255 -> buffer_ok s ->
  (exists evs,
      SPI.log (bus (snd (DS1343._write_u8 address val s))) =
        SPI.log (bus s) ++ evs /\
      first_byte_sent evs = Some (Z.lor address 0x80)) /\
  (exists evs,
      SPI.log (bus (snd (DS1343._write_from address buf length s))) =
        SPI.log (bus s) ++ evs /\
      first_byte_sent evs = Some (Z.lor address 0x80)) /\
  (exists evs,
      SPI.log (bus (snd (DS1343._read_into address buf length s))) =
        SPI.log (bus s) ++ evs /\
      first_byte_sent evs = Some (Z.land address 0x7F)) /\
  Z.testbit (Z.lor address 0x80) 7 = true /\
  Z.testbit (Z.land address 0x7F) 7 = false.
Proof.
  intros Ha Hb.
  destruct s as [B cb [sl [r p] fs lg]]. open_buffer Hb.
  repeat split.
  - split_faults fs; run_transport; show_traffic;
      cbn [first_byte_sent]; rewrite write_header_byte by exact Ha;
      reflexivity.
  - destruct buf; destruct length; split_faults fs; run_transport;
      show_traffic;
      cbn [first_byte_sent]; rewrite write_header_byte by exact Ha;
      reflexivity.
  - destruct buf; destruct length; split_faults fs; run_transport;
      show_traffic; reflexivity.
  - rewrite <- (write_header_byte address Ha). apply write_header_bit7.
  - apply read_header_bit7.
Qed.

Lemma C5_direction_bit_framing_witness :
  let s := boot blank_chip [] in
  (0 <= 0x05 <= 255 /\ buffer_ok s) /\
  (exists evs,
      SPI.log (bus (snd (DS1343._write_u8 0x05 0xAB s))) =
        SPI.log (bus s) ++ evs /\
      first_byte_sent evs = Some 0x85) /\
  (exists evs,
      SPI.log (bus (snd (DS1343._write_from 0x05 the_caller_buf None s))) =
        SPI.log (bus s) ++ evs /\
      first_byte_sent evs = Some 0x85) /\
  (exists evs,
      SPI.log (bus (snd (DS1343._read_into 0x05 the_caller_buf None s))) =
        SPI.log (bus s) ++ evs /\
      first_byte_sent evs = Some 0x05) /\
  Z.testbit 0x85 7 = true /\
  Z.testbit 0x05 7 = false.
Proof.
  intros s.
  assert (Ha : 0 <= 0x05 <= 255) by lia.
  split; [split; [exact Ha | reflexivity] |].
  exact (C5_direction_bit_framing 0x05 0xAB the_caller_buf None s
           Ha eq_refl).
Defined.

(** A read of address 0x85 (bit 7 set by the caller) sends 0x05 first. *)
Example read_of_0x85_sends_0x05 :
  SPI.log (bus (snd (DS1343._read_u8 0x85 (boot blank_chip [])))) =
  [SPI.Select; SPI.Write [0x05]; SPI.ReadInto 1; SPI.Deselect].
Proof. reflexivity. Qed.

End Framing.

Section Sessions.

Lemma _read_into_scoped address buf length s :
  scoped_session s (fst (DS1343._read_into address buf length s))
                   (snd (DS1343._read_into address buf length s)).
Proof.
  destruct s as [B cb [sl [r p] fs lg]].
  destruct buf; destruct length as [n |]; destruct B as [| b0 B];
    split_faults fs; run_transport; close_session.
Qed.

Lemma _write_from_scoped address buf length s :
  scoped_session s (fst (DS1343._write_from address buf length s))
                   (snd (DS1343._write_from address buf length s)).
Proof.
  destruct s as [B cb [sl [r p] fs lg]].
  destruct buf; destruct length as [n |]; destruct B as [| b0 B];
    split_faults fs; run_transport; close_session.
Qed.

Lemma _write_u8_scoped address val s :
  scoped_session s (fst (DS1343._write_u8 address val s))
                   (snd (DS1343._write_u8 address val s)).
Proof.
  destruct s as [B cb [sl [r p] fs lg]].
  destruct B as [| b0 [| b1 B]]; split_faults fs;
    run_transport; close_session.
Qed.

(** C9: every transport read or write call takes the chip-select session
    once and has released it when it returns, on every path, a failing
    bus transfer included; and the error of a failing transfer is the
    error the call raises. *)
Theorem C9_session_released_on_every_path address val buf length s :
  scoped_session s (fst (DS1343._read_into address buf length s))
                   (snd (DS1343._read_into address buf length s)) /\
  scoped_session s (fst (DS1343._write_from address buf length s))
                   (snd (DS1343._write_from address buf length s)) /\
  scoped_session s (fst (DS1343._write_u8 address val s))
                   (snd (DS1343._write_u8 address val s)).
Proof.
  split; [apply _read_into_scoped |].
  split; [apply _write_from_scoped | apply _write_u8_scoped].
Qed.

(** A link error in the middle of a burst read: the session is released
    and the error reaches the caller as it was raised. *)
Example burst_read_fails_midway :
  let run :=
    DS1343._read_into 0x00 the_BUFFER (Some 7%nat)
      (boot blank_chip [None; Some (OSError 5)]) in
  fst run = Raise (OSError 5) /\
  SPI.selected (bus (snd run)) = false /\
  SPI.log (bus (snd run)) =
    [SPI.Select; SPI.Write [0x00]; SPI.ReadInto 7; SPI.Failed (OSError 5);
     SPI.Deselect].
Proof. repeat split; reflexivity. Qed.

End Sessions.

Section ReadOnly.

(** C10: get-time and get-valid only read: the one byte each frame
    writes is an address with bit 7 clear, and the chip's registers are
    afterwards what they were, whatever they were and whether or not the
    link fails. *)
Theorem C10_getters_leave_registers s :
  buffer_ok s ->
  (SPI.regs (SPI.device (bus (snd (DS1343.datetime s)))) =
     SPI.regs (SPI.device (bus s)) /\
   exists evs,
     SPI.log (bus (snd (DS1343.datetime s))) = SPI.log (bus s) ++ evs /\
     forallb read_only evs = true) /\
  (SPI.regs (SPI.device (bus (snd (DS1343.valid s)))) =
     SPI.regs (SPI.device (bus s)) /\
   exists evs,
     SPI.log (bus (snd (DS1343.valid s))) = SPI.log (bus s) ++ evs /\
     forallb read_only evs = true).
Proof.
  intros Hb.
  destruct s as [B cb [sl [r p] fs lg]]. open_buffer Hb.
  split; split.
  - unfold DS1343.datetime, _S_REG.
    split_faults fs; run_transport; reflexivity.
  - unfold DS1343.datetime, _S_REG.
    split_faults fs; run_transport; show_traffic; reflexivity.
  - unfold DS1343.valid.
    split_faults fs; run_transport; reflexivity.
  - unfold DS1343.valid.
    split_faults fs; run_transport; show_traffic; reflexivity.
Qed.

Lemma C10_getters_leave_registers_witness :
  let s := boot (chip_of_image [0x30; 0x05; 0x13; 0x05; 0x15; 0x03; 0x24]) [] in
  buffer_ok s /\
  (SPI.regs (SPI.device (bus (snd (DS1343.datetime s)))) =
     SPI.regs (SPI.device (bus s)) /\
   exists evs,
     SPI.log (bus (snd (DS1343.datetime s))) = SPI.log (bus s) ++ evs /\
     forallb read_only evs = true) /\
  (SPI.regs (SPI.device (bus (snd (DS1343.valid s)))) =
     SPI.regs (SPI.device (bus s)) /\
   exists evs,
     SPI.log (bus (snd (DS1343.valid s))) = SPI.log (bus s) ++ evs /\
     forallb read_only evs = true).
Proof.
  intros s. split; [reflexivity |].
  exact (C10_getters_leave_registers s eq_refl).
Defined.

End ReadOnly.

(** * Further properties of the driver *)

Section CodecMore.

Lemma lor_add_low x y k :
  0 <= k -> 0 <= y < 2 ^ k -> x mod 2 ^ k = 0 -> Z.lor x y = x + y.
Proof.
  intros Hk Hy Hx.
  assert (Hp : 0 < 2 ^ k) by (apply Z.pow_pos_nonneg; lia).
  assert (Hd : x = (x / 2 ^ k) * 2 ^ k).
  { pose proof (Z.div_mod x (2 ^ k) ltac:(lia)) as H. rewrite Hx in H. lia. }
  rewrite Hd at 1 2.
  rewrite <- (lor_shiftl_add (x / 2 ^ k) y k Hk Hy).
  rewrite Z.shiftl_mul_pow2 by exact Hk. reflexivity.
Qed.

Lemma land_15_mod x : Z.land x 0x0F = x mod 16.
Proof. change 0x0F with (Z.ones 4). apply Z.land_ones. lia. Qed.

(** The packing as a sum: the four nibbles do not overlap. *)
Lemma _int_to_bcd_sum v :
  _int_to_bcd v =
  ((v / 1000) mod 16) * 262144 + ((v / 100) mod 16) * 256
  + ((v / 10) mod 16) * 16 + v mod 10.
Proof.
  unfold _int_to_bcd.
  rewrite !land_15_mod.
  rewrite !Z.shiftl_mul_pow2 by lia.
  change (2 ^ 0x12) with 262144. change (2 ^ 0x8) with 256.
  change (2 ^ 0x4) with 16.
  assert (Ho : (v mod 10) mod 16 = v mod 10) by (Z.div_mod_to_equations; lia).
  rewrite Ho.
  pose proof (Z.mod_pos_bound (v / 1000) 16 eq_refl) as HT.
  pose proof (Z.mod_pos_bound (v / 100) 16 eq_refl) as HH.
  pose proof (Z.mod_pos_bound (v / 10) 16 eq_refl) as Ht.
  pose proof (Z.mod_pos_bound v 10 eq_refl) as Hu.
  set (T := (v / 1000) mod 16) in *. set (H := (v / 100) mod 16) in *.
  set (t := (v / 10) mod 16) in *. set (o := v mod 10) in *.
  rewrite (lor_add_low (T * 262144) (H * 256) 18);
    [| lia | simpl; lia | change (2 ^ 18) with 262144; apply Z.mod_mul; lia].
  rewrite (lor_add_low (T * 262144 + H * 256) (t * 16) 8);
    [| lia | simpl; lia |].
  2:{ change (2 ^ 8) with 256. Z.div_mod_to_equations. lia. }
  rewrite (lor_add_low (T * 262144 + H * 256 + t * 16) o 4);
    [| lia | simpl; lia |].
  2:{ change (2 ^ 4) with 16. Z.div_mod_to_equations. lia. }
  reflexivity.
Qed.

Ltac decode_masked k :=
  rewrite _int_to_bcd_sum, _bcd_to_int_nibbles;
  match goal with
  | |- context [Z.land ?x ?m] =>
      change m with (Z.ones k); rewrite (Z.land_ones x k) by lia
  end;
  match goal with
  | |- context [2 ^ k] =>
      let p := eval vm_compute in (2 ^ k) in change (2 ^ k) with p
  end;
  Z.div_mod_to_equations; lia.

Lemma decode_masked_7F v :
  _bcd_to_int (Z.land (_int_to_bcd v) 0x7F) = v mod 80.
Proof. decode_masked 7. Qed.

Lemma decode_masked_3F v :
  _bcd_to_int (Z.land (_int_to_bcd v) 0x3F) = v mod 40.
Proof. decode_masked 6. Qed.

Lemma decode_masked_1F v :
  _bcd_to_int (Z.land (_int_to_bcd v) 0x1F) = v mod 20.
Proof. decode_masked 5. Qed.

Lemma decode_masked_FF v :
  _bcd_to_int (Z.land (_int_to_bcd v) 0xFF) = v mod 160.
Proof. decode_masked 8. Qed.


Lemma _bcd_to_int_range x : 0 <= _bcd_to_int x <= 165.
Proof. rewrite _bcd_to_int_nibbles. Z.div_mod_to_equations. lia. Qed.

(** X1: [_bcd_to_int] looks at the low byte of its argument only, and its
    result is never outside 0..165, valid BCD or not. *)
Theorem X1_bcd_to_int_low_byte_bounded x :
  _bcd_to_int x = _bcd_to_int (x mod 256) /\ 0 <= _bcd_to_int x <= 165.
Proof.
  split; [| apply _bcd_to_int_range].
  rewrite !_bcd_to_int_nibbles. Z.div_mod_to_equations. lia.
Qed.

(** X2: for a valid BCD byte (both nibbles at most 9), encoding what
    [_bcd_to_int] decodes gives the byte back. *)
Theorem X2_int_to_bcd_of_bcd_to_int b :
  0 <= b <= 255 -> b / 16 <= 9 -> b mod 16 <= 9 ->
  _int_to_bcd (_bcd_to_int b) = b.
Proof.
  intros Hb Hh Hl.
  rewrite _bcd_to_int_nibbles, _int_to_bcd_sum.
  Z.div_mod_to_equations. lia.
Qed.

Lemma X2_int_to_bcd_of_bcd_to_int_witness :
  (0 <= 0x59 <= 255 /\ 0x59 / 16 <= 9 /\ 0x59 mod 16 <= 9) /\
  _int_to_bcd (_bcd_to_int 0x59) = 0x59.
Proof.
  assert (H1 : 0 <= 0x59 <= 255) by lia.
  assert (H2 : 0x59 / 16 <= 9) by (vm_compute; discriminate).
  assert (H3 : 0x59 mod 16 <= 9) by (vm_compute; discriminate).
  split; [split; [exact H1 | split; [exact H2 | exact H3]] |].
  exact (X2_int_to_bcd_of_bcd_to_int 0x59 H1 H2 H3).
Defined.

(** X3: for every integer, negative ones included, [_int_to_bcd] returns
    a value in 0 .. 2^22 - 1 whose low nibble is the ones digit [v mod 10]
    and whose bits 12 to 17 are clear. *)
Theorem X3_int_to_bcd_shape v :
  0 <= _int_to_bcd v < 2 ^ 22 /\
  (_int_to_bcd v) mod 16 = v mod 10 /\
  (_int_to_bcd v / 4096) mod 64 = 0.
Proof.
  rewrite _int_to_bcd_sum. change (2 ^ 22) with 4194304.
  repeat split; Z.div_mod_to_equations; lia.
Qed.

End CodecMore.

Section Bursts.

Lemma next_range a : 0 <= SPI.next a < 128.
Proof. unfold SPI.next. apply Z.mod_pos_bound. lia. Qed.

Lemma land_7F_range a : 0 <= Z.land a 0x7F < 128.
Proof.
  change 0x7F with (Z.ones 7). rewrite Z.land_ones by lia.
  apply Z.mod_pos_bound. reflexivity.
Qed.

(** A burst of bytes clocked into a chip in write mode. *)
Lemma clock_write data : forall r a,
  SPI.clock data (SPI.mk_chip r (Some (true, a))) =
  (repeat 0 (length data),
   SPI.mk_chip (regs_after_burst r a data)
     (Some (true, Nat.iter (length data) SPI.next a))).
Proof.
  induction data as [| d ds IH]; intros r a.
  - reflexivity.
  - cbn [SPI.clock SPI.chip_xfer SPI.ptr SPI.regs].
    rewrite IH. cbn [length repeat regs_after_burst].
    rewrite Nat.iter_succ_r. reflexivity.
Qed.

(** A burst of bytes clocked out of a chip in read mode. *)
Lemma clock_read n : forall r a,
  SPI.clock (repeat 0 n) (SPI.mk_chip r (Some (false, a))) =
  (burst_bytes r a n,
   SPI.mk_chip r (Some (false, Nat.iter n SPI.next a))).
Proof.
  induction n as [| n IH]; intros r a.
  - reflexivity.
  - cbn [repeat SPI.clock SPI.chip_xfer SPI.ptr SPI.regs].
    rewrite IH. cbn [burst_bytes]. unfold byte_of.
    rewrite Nat.iter_succ_r. reflexivity.
Qed.

Lemma burst_bytes_length r n : forall a, length (burst_bytes r a n) = n.
Proof.
  induction n as [| n IH]; intros a; cbn [burst_bytes length].
  - reflexivity.
  - rewrite IH. reflexivity.
Qed.

(** A burst leaves alone every register its addresses do not reach. *)
Lemma regs_after_burst_other data : forall r a x,
  (forall i, (i < length data)%nat -> (a + Z.of_nat i) mod 128 <> x) ->
  0 <= a < 128 ->
  regs_after_burst r a data x = r x.
Proof.
  induction data as [| d ds IH]; intros r a x Hx Ha.
  - reflexivity.
  - cbn [regs_after_burst].
    rewrite IH.
    + unfold SPI.upd.
      destruct (Z.eqb_spec x a) as [-> | Hne]; [| reflexivity].
      exfalso. apply (Hx 0%nat); [cbn; lia |].
      rewrite Z.add_0_r. apply Z.mod_small. exact Ha.
    + intros i Hi. unfold SPI.next.
      rewrite Z.add_mod_idemp_l by lia.
      replace (a + 1 + Z.of_nat i) with (a + Z.of_nat (S i)) by lia.
      apply Hx. cbn [length]. lia.
    + apply next_range.
Qed.

(** What a burst write stores, a burst read from the same address returns. *)
Lemma burst_round_trip data : forall r a,
  0 <= a < 128 -> (length data <= 128)%nat ->
  burst_bytes (regs_after_burst r a data) a (length data) =
  map (fun d => Z.land d 0xFF) data.
Proof.
  induction data as [| d ds IH]; intros r a Ha Hlen.
  - reflexivity.
  - cbn [length burst_bytes regs_after_burst map]. f_equal.
    + unfold byte_of. rewrite regs_after_burst_other.
      * unfold SPI.upd. rewrite Z.eqb_refl. reflexivity.
      * intros i Hi. cbn [length] in Hlen. unfold SPI.next.
        rewrite Z.add_mod_idemp_l by lia.
        Z.div_mod_to_equations. lia.
      * apply next_range.
    + apply IH; [apply next_range | cbn [length] in Hlen; lia].
Qed.

Lemma map_land_bytes l :
  Forall (fun d => 0 <= d <= 255) l -> map (fun d => Z.land d 0xFF) l = l.
Proof.
  induction 1 as [| d l Hd _ IH]; cbn [map].
  - reflexivity.
  - rewrite IH. f_equal.
    change 0xFF with (Z.ones 8). rewrite Z.land_ones by lia.
    apply Z.mod_small. change (2 ^ 8) with 256. lia.
Qed.

End Bursts.



Ltac runb1 :=
  cbv [set_bus save load SPI.enter SPI.exit SPI.pop_fault];
  cbn -[Z.land Z.lor Z.testbit Z.shiftl Z.shiftr Z.div Z.modulo Z.add Z.mul
        _int_to_bcd _bcd_to_int].
Ltac runb := repeat (progress (runb1; fold_consts)).

Section BurstTransport.

Variables (cb : list Z) (sel : bool) (r : Z -> Z) (p : option (bool * Z))
          (lg : list SPI.event).


Lemma _write_from_caller_ok a n b0 rest :
  DS1343._write_from a the_caller_buf n
    (mk_state (b0 :: rest) cb (SPI.mk_bus sel (SPI.mk_chip r p) [] lg)) =
  (Return tt,
   mk_state (Z.land (Z.lor a 0x80) 0xFF :: rest) cb
     (SPI.mk_bus false
        (SPI.mk_chip
           (regs_after_burst r (Z.land a 0x7F) (firstn (length_or_len n cb) cb)) None)
        []
        (lg ++ [SPI.Select; SPI.Write [Z.land (Z.lor a 0x80) 0xFF];
                SPI.Write (firstn (length_or_len n cb) cb); SPI.Deselect]))).
Proof.
  destruct n as [k |]; unfold_transport; runb;
    rewrite !is_byte_land by reflexivity; runb;
    rewrite write_header_bit7, write_header_addr, clock_write; runb;
    rewrite <- ?app_assoc; reflexivity.
Qed.

Lemma _read_into_caller_ok a n b0 rest :
  DS1343._read_into a the_caller_buf n
    (mk_state (b0 :: rest) cb (SPI.mk_bus sel (SPI.mk_chip r p) [] lg)) =
  (Return tt,
   mk_state (Z.land a 0x7F :: rest)
     (burst_bytes r (Z.land a 0x7F) (Nat.min (length_or_len n cb) (length cb))
      ++ skipn (Nat.min (length_or_len n cb) (length cb)) cb)
     (SPI.mk_bus false (SPI.mk_chip r None) []
        (lg ++ [SPI.Select; SPI.Write [Z.land a 0x7F];
                SPI.ReadInto (Nat.min (length_or_len n cb) (length cb));
                SPI.Deselect]))).
Proof.
  destruct n as [k |]; unfold_transport; runb;
    rewrite !is_byte_land by reflexivity; runb;
    rewrite read_header_bit7, clock_read; runb;
    rewrite land_land; change (Z.land 127 127) with 127;
    rewrite <- ?app_assoc; reflexivity.
Qed.


(** [_write_from] handed [_BUFFER] itself. *)
Lemma _write_from_BUFFER_ok a n b0 rest :
  DS1343._write_from a the_BUFFER n
    (mk_state (b0 :: rest) cb (SPI.mk_bus sel (SPI.mk_chip r p) [] lg)) =
  (Return tt,
   mk_state (Z.land (Z.lor a 0x80) 0xFF :: rest) cb
     (SPI.mk_bus false
        (SPI.mk_chip
           (regs_after_burst r (Z.land a 0x7F)
              (firstn (length_or_len n (b0 :: rest))
                 (Z.land (Z.lor a 0x80) 0xFF :: rest))) None)
        []
        (lg ++ [SPI.Select; SPI.Write [Z.land (Z.lor a 0x80) 0xFF];
                SPI.Write (firstn (length_or_len n (b0 :: rest))
                             (Z.land (Z.lor a 0x80) 0xFF :: rest));
                SPI.Deselect]))).
Proof.
  destruct n as [k |]; unfold_transport; runb;
    rewrite !is_byte_land by reflexivity; runb;
    rewrite write_header_bit7, write_header_addr, clock_write; runb;
    rewrite <- ?app_assoc; reflexivity.
Qed.

End BurstTransport.

Section Invariants.

Lemma preserves_ret {A} P (a : A) : preserves P (ret a).
Proof. intros s H. exact H. Qed.

Lemma preserves_lift {A} P (o : outcome A) : preserves P (lift o).
Proof. intros s H. exact H. Qed.

Lemma preserves_getitem P i : preserves P (getitem i).
Proof.
  intros s H. unfold getitem.
  destruct (nth_error (_BUFFER s) i); exact H.
Qed.

Lemma preserves_len P buf : preserves P (len buf).
Proof. intros s H. exact H. Qed.

Lemma preserves_bind {A B} P (m : M A) (f : A -> M B) :
  preserves P m -> (forall a, preserves P (f a)) -> preserves P (bind m f).
Proof.
  intros Hm Hf s H. unfold bind.
  specialize (Hm s H).
  destruct (m s) as [[a | e] s1]; cbn [snd] in *.
  - apply Hf. exact Hm.
  - exact Hm.
Qed.

Lemma store_length i v : forall l l',
  store i v l = Some l' -> length l' = length l.
Proof.
  induction i as [| i IH]; intros [| h t] l' H; cbn [store] in H;
    try discriminate H.
  - injection H as <-. reflexivity.
  - destruct (store i v t) as [t' |] eqn:E; cbn [option_map] in H;
      [| discriminate H].
    injection H as <-. cbn [length]. rewrite (IH t t' E). reflexivity.
Qed.

Lemma clock_length mosi : forall c,
  length (fst (SPI.clock mosi c)) = length mosi.
Proof.
  induction mosi as [| m ms IH]; intros c; cbn [SPI.clock].
  - reflexivity.
  - destruct (SPI.chip_xfer m c) as [x c1].
    specialize (IH c1). destruct (SPI.clock ms c1) as [xs c2].
    cbn [fst length] in *. rewrite IH. reflexivity.
Qed.

(** *** The length of [_BUFFER] *)

Lemma buffer_ok_setitem i v : preserves buffer_ok (setitem i v).
Proof.
  intros s H. unfold setitem.
  destruct (store i v (_BUFFER s)) as [l |] eqn:E; [| exact H].
  destruct (is_byte v); [| exact H].
  unfold buffer_ok in *. cbn [snd save _BUFFER].
  rewrite (store_length _ _ _ _ E). exact H.
Qed.

Lemma buffer_ok_device_write buf n : preserves buffer_ok (device_write buf n).
Proof.
  intros s H. unfold device_write.
  destruct (SPI.write _ _) as [x b]. exact H.
Qed.

Lemma buffer_ok_device_readinto buf n :
  preserves buffer_ok (device_readinto buf n).
Proof.
  intros s H. unfold device_readinto, SPI.readinto.
  destruct (SPI.pop_fault (SPI.faults (bus s))) as [[e |] rest];
    [exact H |].
  destruct buf; cbn [snd fst save load set_bus _BUFFER caller_buf];
    [| exact H].
  unfold buffer_ok in *. cbn [_BUFFER].
  rewrite length_app, length_skipn.
  destruct (SPI.selected (bus s)); cbn [fst];
    rewrite ?clock_length, repeat_length; lia.
Qed.

Lemma buffer_ok_with_device {A} (body : M A) :
  preserves buffer_ok body -> preserves buffer_ok (with_device body).
Proof.
  intros Hb s H. unfold with_device.
  specialize (Hb (set_bus (SPI.enter (bus s)) s) H).
  destruct (body _) as [x s1]. exact Hb.
Qed.

(** *** Chip-select *)

Lemma idle_setitem i v : preserves idle (setitem i v).
Proof.
  intros s H. unfold setitem.
  destruct (store i v (_BUFFER s)); [| exact H].
  destruct (is_byte v); exact H.
Qed.

Lemma idle_with_device {A} (body : M A) s :
  idle (snd (with_device body s)).
Proof.
  unfold with_device. destruct (body _) as [x s1]. reflexivity.
Qed.

Lemma idle_preserved_with_device {A} (body : M A) :
  preserves idle (with_device body).
Proof. intros s _. apply idle_with_device. Qed.

End Invariants.

Create HintDb preserve.
#[local] Hint Resolve preserves_ret preserves_lift preserves_getitem
  preserves_len buffer_ok_setitem buffer_ok_device_write
  buffer_ok_device_readinto idle_setitem idle_preserved_with_device
  : preserve.
#[local] Hint Resolve preserves_bind buffer_ok_with_device | 5 : preserve.

Ltac preserve :=
  unfold DS1343.time, DS1343.datetime_setter, DS1343.write_fields,
    DS1343.__init__, DS1343.datetime, DS1343.valid, DS1343._read_u8,
    DS1343._read_into, DS1343._write_from, DS1343._write_u8;
  cbv zeta;
  repeat first [ apply preserves_bind; [| intro]
               | apply buffer_ok_with_device ];
  auto with preserve.

Section InvariantTheorems.

Variable localtime : object -> outcome struct_time.
Variable mktime : struct_time -> outcome Z.

Lemma buffer_ok_transport address val buf length :
  preserves buffer_ok (DS1343._read_into address buf length) /\
  preserves buffer_ok (DS1343._write_from address buf length) /\
  preserves buffer_ok (DS1343._write_u8 address val) /\
  preserves buffer_ok (DS1343._read_u8 address).
Proof. repeat split; destruct length; preserve. Qed.

Lemma buffer_ok_facade set_time :
  preserves buffer_ok DS1343.__init__ /\
  preserves buffer_ok DS1343.datetime /\
  preserves buffer_ok (DS1343.datetime_setter localtime set_time) /\
  preserves buffer_ok DS1343.valid /\
  preserves buffer_ok (DS1343.time mktime).
Proof. repeat split; preserve. Qed.

Lemma idle_facade set_time :
  preserves idle DS1343.__init__ /\
  preserves idle DS1343.datetime /\
  preserves idle (DS1343.datetime_setter localtime set_time) /\
  preserves idle DS1343.valid /\
  preserves idle (DS1343.time mktime).
Proof. repeat split; preserve. Qed.

(** X12: no operation of the driver resizes [_BUFFER]: it has its eight
    bytes after every transport call and every facade call, for any
    arguments, on any link, whether the call returns or raises. *)
Theorem X12_buffer_length_invariant address val buf length set_time s :
  buffer_ok s ->
  buffer_ok (snd (DS1343._read_into address buf length s)) /\
  buffer_ok (snd (DS1343._write_from address buf length s)) /\
  buffer_ok (snd (DS1343._write_u8 address val s)) /\
  buffer_ok (snd (DS1343._read_u8 address s)) /\
  buffer_ok (snd (DS1343.__init__ s)) /\
  buffer_ok (snd (DS1343.datetime s)) /\
  buffer_ok (snd (DS1343.datetime_setter localtime set_time s)) /\
  buffer_ok (snd (DS1343.valid s)) /\
  buffer_ok (snd (DS1343.time mktime s)).
Proof.
  intros Hb.
  destruct (buffer_ok_transport address val buf length) as (T1 & T2 & T3 & T4).
  destruct (buffer_ok_facade set_time) as (F1 & F2 & F3 & F4 & F5).
  repeat split; auto.
Qed.

(** X13: every facade call that starts with chip-select released returns
    or raises with chip-select released, on any link. *)
Theorem X13_facade_releases_chip_select set_time s :
  idle s ->
  idle (snd (DS1343.__init__ s)) /\
  idle (snd (DS1343.datetime s)) /\
  idle (snd (DS1343.datetime_setter localtime set_time s)) /\
  idle (snd (DS1343.valid s)) /\
  idle (snd (DS1343.time mktime s)).
Proof.
  intros Hi.
  destruct (idle_facade set_time) as (F1 & F2 & F3 & F4 & F5).
  repeat split; auto.
Qed.

End InvariantTheorems.

Section TransportTheorems.

(** X7: a register written with [_write_u8] reads back with [_read_u8]
    as the value's low byte, for any integers given as address and value. *)
Theorem X7_write_u8_then_read_u8 a v s :
  buffer_ok s -> link_ok s ->
  fst ((DS1343._write_u8 a v ;; DS1343._read_u8 a) s) =
  Return (Z.land v 0xFF).
Proof.
  intros Hb Hl. open_state s Hb Hl.
  step _write_u8_ok. rewrite _read_u8_ok. cbn [fst].
  rewrite byte_of_upd_same. rewrite land_land. reflexivity.
Qed.

Lemma X7_write_u8_then_read_u8_witness :
  let s := boot blank_chip [] in
  (buffer_ok s /\ link_ok s) /\
  fst ((DS1343._write_u8 0x8F 0x1A5 ;; DS1343._read_u8 0x0F) s) =
  Return 0xA5.
Proof.
  intros s. split; [split; reflexivity |].
  exact (X7_write_u8_then_read_u8 0x8F 0x1A5 s eq_refl eq_refl).
Defined.

(** X8: [_write_u8] sets the register at [address & 0x7F] to the value's
    low byte and changes no other register. *)
Theorem X8_write_u8_one_register a v s x :
  buffer_ok s -> link_ok s ->
  reg (snd (DS1343._write_u8 a v s)) x =
  if x =? Z.land a 0x7F then Z.land v 0xFF else reg s x.
Proof.
  intros Hb Hl. open_state s Hb Hl.
  rewrite _write_u8_ok. unfold reg. cbn [snd bus SPI.device SPI.regs].
  destruct (Z.eqb_spec x (Z.land a 0x7F)) as [-> | Hne].
  - rewrite byte_of_upd_same, land_land. reflexivity.
  - apply byte_of_upd_other. apply Z.eqb_neq. exact Hne.
Qed.


Lemma nth_burst_bytes n : forall r a i,
  0 <= a < 128 -> (i < n)%nat ->
  nth i (burst_bytes r a n) 0 = byte_of r ((a + Z.of_nat i) mod 128).
Proof.
  induction n as [| n IH]; intros r a i Ha Hi; [lia |].
  cbn [burst_bytes]. destruct i as [| i]; cbn [nth].
  - rewrite Z.add_0_r, Z.mod_small by exact Ha. reflexivity.
  - rewrite IH by (try apply next_range; lia).
    unfold SPI.next. rewrite Z.add_mod_idemp_l by lia.
    f_equal. f_equal. lia.
Qed.

(** X9: a burst write of the caller's bytes (at most 128 of them) with
    [_write_from], followed by a burst read from the same address with
    [_read_into], brings back the same bytes. *)
Theorem X9_burst_write_then_read address s :
  buffer_ok s -> link_ok s ->
  (length (caller_buf s) <= 128)%nat ->
  Forall (fun d => 0 <= d <= 255) (caller_buf s) ->
  let run :=
    (DS1343._write_from address the_caller_buf None ;;
     DS1343._read_into address the_caller_buf None) s in
  fst run = Return tt /\ caller_buf (snd run) = caller_buf s.
Proof.
  intros Hb Hl Hlen Hbytes run. subst run.
  open_state s Hb Hl. cbn [caller_buf] in Hlen, Hbytes.
  unfold bind. rewrite _write_from_caller_ok. cbv beta iota.
  rewrite _read_into_caller_ok.
  cbn [fst snd caller_buf length_or_len].
  rewrite Nat.min_id, firstn_all, skipn_all, app_nil_r.
  split; [reflexivity |].
  rewrite burst_round_trip by (try apply land_7F_range; exact Hlen).
  apply map_land_bytes. exact Hbytes.
Qed.

(** X10: [_read_into] fills the first bytes of the caller's buffer with the
    registers from [address & 0x7F] upwards (mod 128), keeps the rest of
    it and the chip's registers, and leaves the address byte in
    [_BUFFER[0]]. *)
Theorem X10_read_into_fills_prefix address length s :
  buffer_ok s -> link_ok s ->
  let s' := snd (DS1343._read_into address the_caller_buf length s) in
  let k := Nat.min (length_or_len length (caller_buf s))
                   (List.length (caller_buf s)) in
  List.length (caller_buf s') = List.length (caller_buf s) /\
  (forall i, (i < k)%nat ->
     nth i (caller_buf s') 0 =
     reg s ((Z.land address 0x7F + Z.of_nat i) mod 128)) /\
  (forall i, (k <= i)%nat -> nth i (caller_buf s') 0 = nth i (caller_buf s) 0) /\
  nth 0 (_BUFFER s') 0 = Z.land address 0x7F /\
  SPI.regs (SPI.device (bus s')) = SPI.regs (SPI.device (bus s)).
Proof.
  intros Hb Hl s' k. subst s'.
  open_state s Hb Hl.
  rewrite _read_into_caller_ok.
  cbn [snd caller_buf _BUFFER bus SPI.device SPI.regs nth] in *.
  fold k.
  assert (Hk : (k <= List.length cb)%nat) by (subst k; lia).
  pose proof (burst_bytes_length r k (Z.land address 0x7F)) as Hbl.
  repeat split.
  - rewrite length_app, length_skipn, Hbl. lia.
  - intros i Hi. rewrite app_nth1 by lia.
    apply nth_burst_bytes; [apply land_7F_range | exact Hi].
  - intros i Hi. rewrite app_nth2 by lia.
    rewrite nth_skipn, Hbl. f_equal. lia.
Qed.

(** X11: when [_write_from] is handed [_BUFFER] itself, the first data byte
    it sends is the address byte it has just stored there, so that is what
    the addressed register receives. *)
Theorem X11_write_from_BUFFER_sends_header address length s :
  buffer_ok s -> link_ok s ->
  (1 <= length_or_len length (_BUFFER s))%nat ->
  let s' := snd (DS1343._write_from address the_BUFFER length s) in
  reg s' (Z.land address 0x7F) = Z.land (Z.lor address 0x80) 0xFF /\
  exists data,
    SPI.log (bus s') =
    SPI.log (bus s) ++
    [SPI.Select; SPI.Write [Z.land (Z.lor address 0x80) 0xFF];
     SPI.Write (Z.land (Z.lor address 0x80) 0xFF :: data); SPI.Deselect].
Proof.
  intros Hb Hl Hn s'. subst s'.
  open_state s Hb Hl. cbn [_BUFFER] in Hn.
  rewrite _write_from_BUFFER_ok.
  destruct (length_or_len length _) as [| m]; [lia |].
  cbn [firstn snd bus SPI.log SPI.device SPI.regs regs_after_burst].
  unfold reg. cbn [bus SPI.device SPI.regs].
  split.
  - unfold byte_of. rewrite regs_after_burst_other.
    + unfold SPI.upd. rewrite Z.eqb_refl. apply land_mask_byte. reflexivity.
    + intros i Hi.
      pose proof (firstn_le_length m [b0; b1; b2; b3; b4; b5; b6]) as Hle.
      pose proof (length_firstn m [b0; b1; b2; b3; b4; b5; b6]) as Hlf.
      cbn [List.length] in Hlf.
      pose proof (land_7F_range address) as Ha.
      unfold SPI.next. rewrite Z.add_mod_idemp_l by lia.
      Z.div_mod_to_equations. lia.
    + apply next_range.
  - eexists. reflexivity.
Qed.

End TransportTheorems.



Section ReadBack.

Variable localtime : object -> outcome struct_time.

Lemma datetime_after_setter set_time ts s :
  DS1343.choose_time_struct localtime set_time = Return ts ->
  buffer_ok s -> link_ok s ->
  fst ((DS1343.datetime_setter localtime set_time ;; DS1343.datetime) s) =
  Return (mk_struct_time
            ((tm_year ts - 2000) mod 160 + 2000)
            (tm_mon ts mod 20) (tm_mday ts mod 40) (tm_hour ts mod 40)
            (tm_min ts mod 80) (tm_sec ts mod 80) (tm_wday ts mod 4)
            (-1) (-1)).
Proof.
  intros Hts Hb Hl. unfold bind at 1.
  rewrite (datetime_setter_resolved _ _ _ _ Hts).
  open_state s Hb Hl.
  change (fst ((DS1343.write_fields ts ;; DS1343.datetime)
                 (mk_state [b; b0; b1; b2; b3; b4; b5; b6] cb
                    (SPI.mk_bus sl (SPI.mk_chip r p) [] lg))) = Return
            (mk_struct_time
            ((tm_year ts - 2000) mod 160 + 2000)
            (tm_mon ts mod 20) (tm_mday ts mod 40) (tm_hour ts mod 40)
            (tm_min ts mod 80) (tm_sec ts mod 80) (tm_wday ts mod 4)
            (-1) (-1))).
  rewrite set_then_get. cbn [fst].
  rewrite decode_masked_FF, decode_masked_1F, !decode_masked_3F,
    !decode_masked_7F, land_3_mod_4.
  reflexivity.
Qed.

(** X4: what get-time returns after set-time, for every time the setter
    resolves to, fields of any size: each field comes back reduced modulo
    what its mask keeps (80 for seconds and minutes, 40 for hours and day,
    20 for the month, 4 for the weekday, 160 for the year past 2000). *)
Theorem X4_set_time_then_get_time set_time ts s :
  DS1343.choose_time_struct localtime set_time = Return ts ->
  buffer_ok s -> link_ok s ->
  fst ((DS1343.datetime_setter localtime set_time ;; DS1343.datetime) s) =
  Return (mk_struct_time
            ((tm_year ts - 2000) mod 160 + 2000)
            (tm_mon ts mod 20) (tm_mday ts mod 40) (tm_hour ts mod 40)
            (tm_min ts mod 80) (tm_sec ts mod 80) (tm_wday ts mod 4)
            (-1) (-1)).
Proof. apply datetime_after_setter. Qed.

(** X5: within the ranges the masks leave room for, which include every
    calendar time of 2000 to 2099, get-time after set-time returns the
    year, month, day, hour, minute and second that were set. *)
Theorem X5_set_time_round_trip set_time ts s :
  DS1343.choose_time_struct localtime set_time = Return ts ->
  buffer_ok s -> link_ok s ->
  calendar_fields_fit ts ->
  exists t,
    fst ((DS1343.datetime_setter localtime set_time ;; DS1343.datetime) s) =
    Return t /\
    tm_year t = tm_year ts /\ tm_mon t = tm_mon ts /\
    tm_mday t = tm_mday ts /\ tm_hour t = tm_hour ts /\
    tm_min t = tm_min ts /\ tm_sec t = tm_sec ts.
Proof.
  intros Hts Hb Hl (Hs & Hm & Hh & Hd & Ho & Hy).
  rewrite (datetime_after_setter _ _ _ Hts Hb Hl).
  eexists. split; [reflexivity |]. cbn [tm_year tm_mon tm_mday tm_hour tm_min tm_sec].
  rewrite !Z.mod_small by lia.
  repeat split; lia.
Qed.

End ReadBack.

Section FaultySteps.

Variables (cb : list Z) (sel : bool) (r : Z -> Z) (p : option (bool * Z))
          (lg : list SPI.event) (fs : list (option exn)).

(** A register write whose transfer the link lets through. *)
Lemma _write_u8_passes a v b0 b1 rest :
  DS1343._write_u8 a v
    (mk_state (b0 :: b1 :: rest) cb
       (SPI.mk_bus sel (SPI.mk_chip r p) (None :: fs) lg)) =
  (Return tt,
   mk_state (Z.land (Z.lor a 0x80) 0xFF :: Z.land v 0xFF :: rest) cb
     (SPI.mk_bus false
        (SPI.mk_chip (SPI.upd r (Z.land a 0x7F) (Z.land v 0xFF)) None) fs
        (lg ++ [SPI.Select;
                SPI.Write [Z.land (Z.lor a 0x80) 0xFF; Z.land v 0xFF];
                SPI.Deselect]))).
Proof.
  unfold_transport. run.
  rewrite !is_byte_land by reflexivity. run.
  rewrite write_header_bit7, write_header_addr. run.
  rewrite <- ?app_assoc. reflexivity.
Qed.

(** A register write whose transfer fails: nothing reaches the chip. *)
Lemma _write_u8_fails a v e b0 b1 rest :
  DS1343._write_u8 a v
    (mk_state (b0 :: b1 :: rest) cb
       (SPI.mk_bus sel (SPI.mk_chip r p) (Some e :: fs) lg)) =
  (Raise e,
   mk_state (Z.land (Z.lor a 0x80) 0xFF :: Z.land v 0xFF :: rest) cb
     (SPI.mk_bus false (SPI.mk_chip r None) fs
        (lg ++ [SPI.Select;
                SPI.Write [Z.land (Z.lor a 0x80) 0xFF; Z.land v 0xFF];
                SPI.Failed e; SPI.Deselect]))).
Proof.
  unfold_transport. run.
  rewrite !is_byte_land by reflexivity. run.
  rewrite <- ?app_assoc. reflexivity.
Qed.

End FaultySteps.

Section PartialWrite.

Variable localtime : object -> outcome struct_time.

(** X14: no rollback.  When the link lets the first [k] field writes
    through and fails the next one (field number [k]: 0 for seconds, ...
    6 for the year), set-time raises that error and issues no further
    frame; the fields before [k] hold their new bytes, the fields after
    [k] and the status register hold what they held. *)
Theorem X14_set_time_partial_write set_time ts s k e rest :
  localtime (localtime_argument set_time) = Return ts ->
  buffer_ok s ->
  SPI.faults (bus s) = repeat None k ++ Some e :: rest ->
  (k < 7)%nat ->
  let run := DS1343.datetime_setter localtime set_time s in
  fst run = Raise e /\
  (exists before,
      SPI.log (bus (snd run)) =
      SPI.log (bus s) ++ before ++
      [SPI.Select;
       SPI.Write [0x80 + Z.of_nat k; nth k (field_bytes ts) 0];
       SPI.Failed e; SPI.Deselect]) /\
  (forall i, (i < k)%nat ->
     reg (snd run) (Z.of_nat i) = nth i (field_bytes ts) 0) /\
  (forall i, (k < i < 7)%nat ->
     reg (snd run) (Z.of_nat i) = reg s (Z.of_nat i)) /\
  reg (snd run) 0x10 = reg s 0x10.
Proof.
  intros Hts Hb Hf Hk run. subst run.
  rewrite <- choose_time_struct_spec in Hts.
  rewrite (datetime_setter_resolved _ _ _ _ Hts).
  destruct s as [B cb [sl [r p] fs lg]]. open_buffer Hb.
  cbn [bus SPI.faults] in Hf. subst fs.
  remember (DS1343.write_fields ts _) as run eqn:E.
  unfold DS1343.write_fields in E. cbv zeta in E.
  destruct k as [| [| [| [| [| [| [| k]]]]]]]; [| | | | | | | lia];
    cbn [repeat app] in E;
    repeat (unfold bind at 1 in E; rewrite _write_u8_passes in E;
            cbv beta iota zeta in E);
    try (unfold bind at 1 in E);
    rewrite _write_u8_fails in E; cbv beta iota zeta in E;
    subst run;
    (split; [reflexivity |]);
    unfold reg; cbn [snd bus SPI.device SPI.regs SPI.log];
    fold_consts; rewrite ?land_mask_byte by reflexivity;
    (split;
     [ rewrite <- ?app_assoc; cbn [app];
       match goal with
       | |- exists before, ?lg0 ++ ?l = @?rhs before =>
           exists (firstn (List.length l - 4) l)
       end;
       reflexivity
     | ]);
    (split; [| split; [| lookup_regs; reflexivity]]);
    intros i Hi;
    (destruct i as [| [| [| [| [| [| [| i]]]]]]]; try lia);
    cbn [Z.of_nat Pos.of_succ_nat Pos.succ nth field_bytes];
    lookup_regs; rewrite ?land_mask_byte by reflexivity; reflexivity.
Qed.

End PartialWrite.

Section StatusKept.

(** A register write, failing or not, leaves the other registers. *)
Lemma reg_kept_write_u8 a v x c :
  (x =? Z.land a 0x7F) = false ->
  preserves (fun s => reg s x = c) (DS1343._write_u8 a v).
Proof.
  intros Hx s. destruct s as [B cb [sl [r p] fs lg]].
  unfold reg. cbn [bus SPI.device SPI.regs].
  destruct B as [| b0 [| b1 B]]; destruct fs as [| [e |] fs];
    run_transport; rewrite ?write_header_bit7, ?write_header_addr; run;
    intros H; rewrite ?byte_of_upd_other by exact Hx; exact H.
Qed.

(** A register read, failing or not, leaves every register. *)
Lemma reg_kept_read_u8 a x c :
  preserves (fun s => reg s x = c) (DS1343._read_u8 a).
Proof.
  intros s. destruct s as [B cb [sl [r p] fs lg]].
  unfold reg. cbn [bus SPI.device SPI.regs].
  destruct B as [| b0 B]; split_faults fs;
    run_transport; rewrite ?read_header_bit7; run;
    intros H; exact H.
Qed.

(** Every transport call only appends to the log. *)
Lemma log_grows_write_u8 a v s :
  exists evs,
    SPI.log (bus (snd (DS1343._write_u8 a v s))) = SPI.log (bus s) ++ evs.
Proof.
  destruct s as [B cb [sl [r p] fs lg]].
  destruct B as [| b0 [| b1 B]]; destruct fs as [| [e |] fs];
    run_transport; cbn [snd bus SPI.log];
    eexists; rewrite <- ?app_assoc; reflexivity.
Qed.

Lemma log_grows_read_u8 a s :
  exists evs,
    SPI.log (bus (snd (DS1343._read_u8 a s))) = SPI.log (bus s) ++ evs.
Proof.
  destruct s as [B cb [sl [r p] fs lg]].
  destruct B as [| b0 B]; split_faults fs;
    run_transport; rewrite ?read_header_bit7; run;
    cbn [snd bus SPI.log];
    eexists; rewrite <- ?app_assoc; reflexivity.
Qed.

(** A call that keeps register 0x10 and appends to the log keeps the
    relation to the starting state. *)
Lemma status_rel_step {A} (m : M A) s0 :
  (forall c, preserves (fun s => reg s 0x10 = c) m) ->
  (forall s, exists evs,
      SPI.log (bus (snd (m s))) = SPI.log (bus s) ++ evs) ->
  preserves (status_only_by_write_back s0) m.
Proof.
  intros Hreg Hlog s (evs & El & Er).
  destruct (Hlog s) as (evs' & El').
  exists (evs ++ evs'). split.
  - rewrite El', El, app_assoc. reflexivity.
  - intros He. rewrite existsb_app in He.
    apply orb_false_elim in He as [He _].
    rewrite <- (Er He). apply Hreg. reflexivity.
Qed.

(** The write-back of the status register shows in the log whenever it
    reaches the bus. *)
Lemma status_rel_write_back v s0 :
  preserves (status_only_by_write_back s0) (DS1343._write_u8 0x10 v).
Proof.
  intros s (evs & El & Er).
  destruct s as [B cb [sl [r p] fs lg]]. cbn [bus SPI.log] in El.
  unfold status_only_by_write_back, reg in *.
  cbn [bus SPI.device SPI.regs] in Er.
  destruct B as [| b0 [| b1 B]]; destruct fs as [| [e |] fs];
    run_transport; cbn [snd bus SPI.log SPI.device SPI.regs];
    rewrite <- ?app_assoc; cbn [app]; rewrite El;
    match goal with
    | |- exists x, (?l0 ++ evs) ++ ?new = _ /\ _ => exists (evs ++ new)
    end;
    (split; [rewrite app_assoc; reflexivity |]);
    intros He; rewrite existsb_app in He;
    apply orb_false_elim in He as [He1 He2];
    first [ discriminate He2 | exact (Er He1) ].
Qed.

Variable localtime : object -> outcome struct_time.

Lemma status_rel_set_time set_time s0 :
  preserves (status_only_by_write_back s0)
    (DS1343.datetime_setter localtime set_time).
Proof.
  unfold DS1343.datetime_setter, DS1343.write_fields. cbv zeta.
  apply preserves_bind; [apply preserves_lift | intros ts].
  do 7 (apply preserves_bind;
        [ apply status_rel_step;
          [ intros c; apply reg_kept_write_u8; reflexivity
          | apply log_grows_write_u8 ]
        | intros _ ]).
  apply preserves_bind;
    [ apply status_rel_step;
      [ intros c; apply reg_kept_read_u8 | apply log_grows_read_u8 ]
    | intros stat ].
  apply status_rel_write_back.
Qed.


End StatusKept.

Section MoreFacade.

Variables (cb : list Z) (sel : bool) (r : Z -> Z) (p : option (bool * Z))
          (lg : list SPI.event).

(** [__init__] on a healthy link. *)
Lemma __init___ok b0 b1 rest :
  DS1343.__init__
    (mk_state (b0 :: b1 :: rest) cb (SPI.mk_bus sel (SPI.mk_chip r p) [] lg)) =
  (Return tt,
   mk_state (0x8F :: Z.land (byte_of r 0x0F) 0x7F :: rest) cb
     (SPI.mk_bus false
        (SPI.mk_chip (SPI.upd r 0x0F (Z.land (byte_of r 0x0F) 0x7F)) None) []
        (lg ++ [SPI.Select; SPI.Write [0x0F]; SPI.ReadInto 1; SPI.Deselect;
                SPI.Select; SPI.Write [0x8F; Z.land (byte_of r 0x0F) 0x7F];
                SPI.Deselect]))).
Proof.
  unfold DS1343.__init__, _CTRL_REG.
  step _read_u8_ok. rewrite _write_u8_ok.
  fold_consts. rewrite !land_mask_byte by reflexivity.
  rewrite <- ?app_assoc. reflexivity.
Qed.

End MoreFacade.

Section MoreFacadeTheorems.

(** X17: construction reads the control register 0x0F, clears its bit 7 and
    writes it back: the other seven bits and every other register stay. *)
Theorem X17_init_clears_backup_disable s :
  buffer_ok s -> link_ok s ->
  let run := DS1343.__init__ s in
  fst run = Return tt /\
  SPI.log (bus (snd run)) =
    SPI.log (bus s) ++
    [SPI.Select; SPI.Write [0x0F]; SPI.ReadInto 1; SPI.Deselect;
     SPI.Select; SPI.Write [0x8F; Z.land (reg s 0x0F) 0x7F]; SPI.Deselect] /\
  reg (snd run) 0x0F = Z.land (reg s 0x0F) 0x7F /\
  Z.testbit (reg (snd run) 0x0F) 7 = false /\
  forall x, x <> 0x0F -> reg (snd run) x = reg s x.
Proof.
  intros Hb Hl run. subst run. open_state s Hb Hl.
  rewrite __init___ok. unfold reg. cbn [fst snd bus SPI.log SPI.device SPI.regs].
  rewrite byte_of_upd_same, land_mask_byte by reflexivity.
  repeat split.
  - apply read_header_bit7.
  - intros x Hx. apply byte_of_upd_other. apply Z.eqb_neq. exact Hx.
Qed.


(** X18: whatever the registers hold, the fields get-time returns are
    bounded: no field is negative and the year is 2000 to 2165. *)
Theorem X18_get_time_fields_bounded s :
  buffer_ok s -> link_ok s ->
  exists t,
    fst (DS1343.datetime s) = Return t /\
    2000 <= tm_year t <= 2165 /\ 0 <= tm_mon t <= 165 /\
    0 <= tm_mday t <= 165 /\ 0 <= tm_hour t <= 165 /\
    0 <= tm_min t <= 165 /\ 0 <= tm_sec t <= 165 /\
    0 <= tm_wday t <= 7 /\ tm_yday t = -1 /\ tm_isdst t = -1.
Proof.
  intros Hb Hl. open_state s Hb Hl. rewrite datetime_ok.
  eexists. split; [reflexivity |].
  cbn [tm_year tm_mon tm_mday tm_hour tm_min tm_sec tm_wday tm_yday tm_isdst].
  pose proof _bcd_to_int_range as Hd.
  pose proof (Hd (byte_of r 6)). pose proof (Hd (byte_of r 5)).
  pose proof (Hd (byte_of r 4)). pose proof (Hd (byte_of r 2)).
  pose proof (Hd (byte_of r 1)). pose proof (Hd (byte_of r 0)).
  assert (0 <= Z.land (byte_of r 3) 0x07 <= 7).
  { replace (Z.land (byte_of r 3) 0x07) with (byte_of r 3 mod 8)
      by (symmetry; apply (Z.land_ones _ 3); lia).
    pose proof (Z.mod_pos_bound (byte_of r 3) 8 eq_refl). lia. }
  repeat split; lia.
Qed.

(** X19: the [time] property is [mktime] of what get-time decodes, read
    with the same single burst, and it writes no register. *)
Theorem X19_time_is_mktime_of_get_time mktime s :
  buffer_ok s -> link_ok s ->
  fst (DS1343.time mktime s) =
    mktime (mk_struct_time
              (_bcd_to_int (reg s 6) + 2000) (_bcd_to_int (reg s 5))
              (_bcd_to_int (reg s 4)) (_bcd_to_int (reg s 2))
              (_bcd_to_int (reg s 1)) (_bcd_to_int (reg s 0))
              (Z.land (reg s 3) 0x07) (-1) (-1)) /\
  SPI.log (bus (snd (DS1343.time mktime s))) =
    SPI.log (bus s) ++
    [SPI.Select; SPI.Write [0x00]; SPI.ReadInto 7; SPI.Deselect] /\
  SPI.regs (SPI.device (bus (snd (DS1343.time mktime s)))) =
    SPI.regs (SPI.device (bus s)).
Proof.
  intros Hb Hl. open_state s Hb Hl.
  unfold DS1343.time, bind. rewrite datetime_ok. unfold lift.
  repeat split.
Qed.

(** X20: on a failing link get-time and get-valid raise the link's error:
    neither returns a value read from a transfer that failed. *)
Theorem X20_getters_raise_link_error s :
  buffer_ok s ->
  (exists evs,
      SPI.log (bus (snd (DS1343.datetime s))) = SPI.log (bus s) ++ evs /\
      (forall e, In (SPI.Failed e) evs -> fst (DS1343.datetime s) = Raise e) /\
      ((forall e, ~ In (SPI.Failed e) evs) ->
       exists t, fst (DS1343.datetime s) = Return t)) /\
  (exists evs,
      SPI.log (bus (snd (DS1343.valid s))) = SPI.log (bus s) ++ evs /\
      (forall e, In (SPI.Failed e) evs -> fst (DS1343.valid s) = Raise e) /\
      ((forall e, ~ In (SPI.Failed e) evs) ->
       exists v, fst (DS1343.valid s) = Return v)).
Proof.
  intros Hb.
  destruct s as [B cb [sl [r p] fs lg]]. open_buffer Hb.
  split.
  - unfold DS1343.datetime, _S_REG.
    split_faults fs; run_transport; show_traffic;
      (split;
       [ cbn [In]; intros x H;
         repeat (destruct H as [H | H]); try discriminate H;
         try contradiction; injection H as <-; reflexivity
       | intros H; first [ eexists; reflexivity
                         | exfalso; eapply H; cbn [In]; eauto 10 ] ]).
  - unfold DS1343.valid.
    split_faults fs; run_transport; show_traffic;
      (split;
       [ cbn [In]; intros x H;
         repeat (destruct H as [H | H]); try discriminate H;
         try contradiction; injection H as <-; reflexivity
       | intros H; first [ eexists; reflexivity
                         | exfalso; eapply H; cbn [In]; eauto 10 ] ]).
Qed.

End MoreFacadeTheorems.

(** ** The properties above on concrete runs *)

Lemma valid_after_set_time_witness :
  let s := boot (SPI.mk_chip (SPI.upd (fun _ => 0) 0x10 0x80) None) [] in
  (DS1343.choose_time_struct Host.localtime_utc set_2024 = Return t_2024_utc /\
   buffer_ok s /\ link_ok s) /\
  fst (DS1343.valid s) = Return false /\
  fst ((DS1343.datetime_setter Host.localtime_utc set_2024 ;; DS1343.valid) s)
  = Return true.
Proof.
  intros s.
  split; [split; [reflexivity | split; reflexivity] |].
  split; [reflexivity |].
  exact (valid_after_set_time Host.localtime_utc set_2024 t_2024_utc s
           eq_refl eq_refl eq_refl).
Defined.

Lemma X4_set_time_then_get_time_witness :
  let s := boot blank_chip [] in
  (DS1343.choose_time_struct Host.localtime_utc set_2024 = Return t_2024_utc /\
   buffer_ok s /\ link_ok s) /\
  fst ((DS1343.datetime_setter Host.localtime_utc set_2024 ;;
        DS1343.datetime) s) =
  Return (mk_struct_time 2024 3 15 13 5 30 0 (-1) (-1)).
Proof.
  intros s.
  split; [split; [reflexivity | split; reflexivity] |].
  exact (X4_set_time_then_get_time Host.localtime_utc set_2024 t_2024_utc s
           eq_refl eq_refl eq_refl).
Defined.

Lemma X5_set_time_round_trip_witness :
  let s := boot blank_chip [] in
  (DS1343.choose_time_struct Host.localtime_utc set_2024 = Return t_2024_utc /\
   buffer_ok s /\ link_ok s /\ calendar_fields_fit t_2024_utc) /\
  exists t,
    fst ((DS1343.datetime_setter Host.localtime_utc set_2024 ;;
          DS1343.datetime) s) = Return t /\
    tm_year t = 2024 /\ tm_mon t = 3 /\ tm_mday t = 15 /\
    tm_hour t = 13 /\ tm_min t = 5 /\ tm_sec t = 30.
Proof.
  intros s.
  assert (Hfit : calendar_fields_fit t_2024_utc).
  { unfold calendar_fields_fit, t_2024_utc. simpl. lia. }
  split; [split; [reflexivity | split; [reflexivity | split; [reflexivity | exact Hfit]]] |].
  exact (X5_set_time_round_trip Host.localtime_utc set_2024 t_2024_utc s
           eq_refl eq_refl eq_refl Hfit).
Defined.

Lemma X8_write_u8_one_register_witness :
  let s := boot blank_chip [] in
  (buffer_ok s /\ link_ok s) /\
  reg (snd (DS1343._write_u8 0x8F 0x1A5 s)) 0x0F = 0xA5 /\
  reg (snd (DS1343._write_u8 0x8F 0x1A5 s)) 0x10 = reg s 0x10.
Proof.
  intros s. split; [split; reflexivity |].
  split.
  - exact (X8_write_u8_one_register 0x8F 0x1A5 s 0x0F eq_refl eq_refl).
  - exact (X8_write_u8_one_register 0x8F 0x1A5 s 0x10 eq_refl eq_refl).
Defined.

Lemma X9_burst_write_then_read_witness :
  let s := boot_with [0x12; 0x34; 0x56] blank_chip [] in
  (buffer_ok s /\ link_ok s /\
   (List.length (caller_buf s) <= 128)%nat /\
   Forall (fun d => 0 <= d <= 255) (caller_buf s)) /\
  let run :=
    (DS1343._write_from 0x20 the_caller_buf None ;;
     DS1343._read_into 0x20 the_caller_buf None) s in
  fst run = Return tt /\ caller_buf (snd run) = [0x12; 0x34; 0x56].
Proof.
  intros s.
  assert (Hlen : (List.length (caller_buf s) <= 128)%nat)
    by (cbn [s boot_with caller_buf List.length]; lia).
  assert (Hbytes : Forall (fun d => 0 <= d <= 255) (caller_buf s))
    by (cbn [s boot_with caller_buf]; repeat constructor; lia).
  split; [split; [reflexivity | split; [reflexivity | split;
            [exact Hlen | exact Hbytes]]] |].
  exact (X9_burst_write_then_read 0x20 s eq_refl eq_refl Hlen Hbytes).
Defined.

Lemma X10_read_into_fills_prefix_witness :
  let s :=
    boot_with [0xAA; 0xBB; 0xCC]
      (chip_of_image [0x30; 0x05; 0x13; 0x05; 0x15; 0x03; 0x24]) [] in
  let s' := snd (DS1343._read_into 0x01 the_caller_buf (Some 2%nat) s) in
  (buffer_ok s /\ link_ok s) /\
  List.length (caller_buf s') = 3%nat /\
  (forall i, (i < 2)%nat ->
     nth i (caller_buf s') 0 = reg s ((Z.land 0x01 0x7F + Z.of_nat i) mod 128)) /\
  (forall i, (2 <= i)%nat -> nth i (caller_buf s') 0 = nth i (caller_buf s) 0) /\
  nth 0 (_BUFFER s') 0 = 0x01 /\
  SPI.regs (SPI.device (bus s')) = SPI.regs (SPI.device (bus s)).
Proof.
  intros s s'. split; [split; reflexivity |].
  exact (X10_read_into_fills_prefix 0x01 (Some 2%nat) s eq_refl eq_refl).
Defined.

Lemma X11_write_from_BUFFER_sends_header_witness :
  let s := boot blank_chip [] in
  let s' := snd (DS1343._write_from 0x20 the_BUFFER (Some 2%nat) s) in
  (buffer_ok s /\ link_ok s /\ (1 <= 2)%nat) /\
  reg s' 0x20 = 0xA0 /\
  exists data,
    SPI.log (bus s') =
    SPI.log (bus s) ++
    [SPI.Select; SPI.Write [0xA0]; SPI.Write (0xA0 :: data); SPI.Deselect].
Proof.
  intros s s'.
  assert (H12 : (1 <= 2)%nat) by lia.
  split; [split; [reflexivity | split; [reflexivity | exact H12]] |].
  exact (X11_write_from_BUFFER_sends_header 0x20 (Some 2%nat) s
           eq_refl eq_refl H12).
Defined.

Lemma X12_buffer_length_invariant_witness :
  let s := boot blank_chip [None; None; Some (OSError 5)] in
  buffer_ok s /\
  buffer_ok (snd (DS1343._read_into 0x00 the_BUFFER None s)) /\
  buffer_ok (snd (DS1343._write_from 0x00 the_BUFFER None s)) /\
  buffer_ok (snd (DS1343._write_u8 0x00 0x30 s)) /\
  buffer_ok (snd (DS1343._read_u8 0x00 s)) /\
  buffer_ok (snd (DS1343.__init__ s)) /\
  buffer_ok (snd (DS1343.datetime s)) /\
  buffer_ok (snd (DS1343.datetime_setter Host.localtime_utc set_2024 s)) /\
  buffer_ok (snd (DS1343.valid s)) /\
  buffer_ok (snd (DS1343.time Host.mktime_utc s)).
Proof.
  intros s. split; [reflexivity |].
  exact (X12_buffer_length_invariant Host.localtime_utc Host.mktime_utc
           0x00 0x30 the_BUFFER None set_2024 s eq_refl).
Defined.

Lemma X13_facade_releases_chip_select_witness :
  let s := boot blank_chip [None; None; Some (OSError 5)] in
  idle s /\
  idle (snd (DS1343.__init__ s)) /\
  idle (snd (DS1343.datetime s)) /\
  idle (snd (DS1343.datetime_setter Host.localtime_utc set_2024 s)) /\
  idle (snd (DS1343.valid s)) /\
  idle (snd (DS1343.time Host.mktime_utc s)).
Proof.
  intros s. split; [reflexivity |].
  exact (X13_facade_releases_chip_select Host.localtime_utc Host.mktime_utc
           set_2024 s eq_refl).
Defined.

Lemma X14_set_time_partial_write_witness :
  let s := boot blank_chip [None; None; Some (OSError 5)] in
  let run := DS1343.datetime_setter Host.localtime_utc set_2024 s in
  (Host.localtime_utc (localtime_argument set_2024) = Return t_2024_utc /\
   buffer_ok s /\
   SPI.faults (bus s) = repeat None 2 ++ Some (OSError 5) :: [] /\
   (2 < 7)%nat) /\
  fst run = Raise (OSError 5) /\
  (exists before,
      SPI.log (bus (snd run)) =
      SPI.log (bus s) ++ before ++
      [SPI.Select; SPI.Write [0x82; 0x13]; SPI.Failed (OSError 5);
       SPI.Deselect]) /\
  (forall i, (i < 2)%nat ->
     reg (snd run) (Z.of_nat i) = nth i (field_bytes t_2024_utc) 0) /\
  (forall i, (2 < i < 7)%nat ->
     reg (snd run) (Z.of_nat i) = reg s (Z.of_nat i)) /\
  reg (snd run) 0x10 = reg s 0x10.
Proof.
  intros s run.
  assert (H27 : (2 < 7)%nat) by lia.
  split; [split; [reflexivity | split; [reflexivity | split;
            [reflexivity | exact H27]]] |].
  exact (X14_set_time_partial_write Host.localtime_utc set_2024 t_2024_utc s
           2%nat (OSError 5) [] eq_refl eq_refl eq_refl H27).
Defined.

(** A set-time that fails at its third write leaves a set oscillator-stop
    flag set; one that completes clears it. *)
Example status_kept_when_cut_short :
  let s :=
    boot (SPI.mk_chip (SPI.upd (fun _ => 0) 0x10 0x80) None)
      [None; None; Some (OSError 5)] in
  let run := DS1343.datetime_setter Host.localtime_utc set_2024 s in
  fst run = Raise (OSError 5) /\
  existsb is_status_write (SPI.log (bus (snd run))) = false /\
  reg (snd run) 0x10 = 0x80.
Proof. repeat split; reflexivity. Qed.


Lemma X17_init_clears_backup_disable_witness :
  let s := boot (SPI.mk_chip (SPI.upd (fun _ => 0) 0x0F 0x84) None) [] in
  let run := DS1343.__init__ s in
  (buffer_ok s /\ link_ok s) /\
  fst run = Return tt /\
  SPI.log (bus (snd run)) =
    [SPI.Select; SPI.Write [0x0F]; SPI.ReadInto 1; SPI.Deselect;
     SPI.Select; SPI.Write [0x8F; 0x04]; SPI.Deselect] /\
  reg (snd run) 0x0F = 0x04 /\
  Z.testbit (reg (snd run) 0x0F) 7 = false /\
  forall x, x <> 0x0F -> reg (snd run) x = reg s x.
Proof.
  intros s run. split; [split; reflexivity |].
  exact (X17_init_clears_backup_disable s eq_refl eq_refl).
Defined.

Lemma X18_get_time_fields_bounded_witness :
  let s := boot (SPI.mk_chip (fun _ => 0xFF) None) [] in
  (buffer_ok s /\ link_ok s) /\
  exists t,
    fst (DS1343.datetime s) = Return t /\
    2000 <= tm_year t <= 2165 /\ 0 <= tm_mon t <= 165 /\
    0 <= tm_mday t <= 165 /\ 0 <= tm_hour t <= 165 /\
    0 <= tm_min t <= 165 /\ 0 <= tm_sec t <= 165 /\
    0 <= tm_wday t <= 7 /\ tm_yday t = -1 /\ tm_isdst t = -1.
Proof.
  intros s. split; [split; reflexivity |].
  exact (X18_get_time_fields_bounded s eq_refl eq_refl).
Defined.

Lemma X19_time_is_mktime_of_get_time_witness :
  let s := boot (chip_of_image [0x30; 0x05; 0x13; 0x05; 0x15; 0x03; 0x24]) [] in
  (buffer_ok s /\ link_ok s) /\
  fst (DS1343.time Host.mktime_utc s) = Return secs_2024_03_15 /\
  SPI.log (bus (snd (DS1343.time Host.mktime_utc s))) =
    [SPI.Select; SPI.Write [0x00]; SPI.ReadInto 7; SPI.Deselect] /\
  SPI.regs (SPI.device (bus (snd (DS1343.time Host.mktime_utc s)))) =
    SPI.regs (SPI.device (bus s)).
Proof.
  intros s. split; [split; reflexivity |].
  exact (X19_time_is_mktime_of_get_time Host.mktime_utc s eq_refl eq_refl).
Defined.

Lemma X20_getters_raise_link_error_witness :
  let s := boot blank_chip [None; Some (OSError 5)] in
  buffer_ok s /\
  fst (DS1343.datetime s) = Raise (OSError 5) /\
  fst (DS1343.valid s) = Raise (OSError 5) /\
  (exists evs,
      SPI.log (bus (snd (DS1343.datetime s))) = SPI.log (bus s) ++ evs /\
      (forall e, In (SPI.Failed e) evs -> fst (DS1343.datetime s) = Raise e) /\
      ((forall e, ~ In (SPI.Failed e) evs) ->
       exists t, fst (DS1343.datetime s) = Return t)) /\
  (exists evs,
      SPI.log (bus (snd (DS1343.valid s))) = SPI.log (bus s) ++ evs /\
      (forall e, In (SPI.Failed e) evs -> fst (DS1343.valid s) = Raise e) /\
      ((forall e, ~ In (SPI.Failed e) evs) ->
       exists v, fst (DS1343.valid s) = Return v)).
Proof.
  intros s. split; [reflexivity |].
  split; [reflexivity |]. split; [reflexivity |].
  exact (X20_getters_raise_link_error s eq_refl).
Defined.
